(** * Minutes typesetting engine of clerk-docket: the two renderers

    Shallow embedding of
      - [src/lib/minutes-pdf.ts]      (the paginated PDF exporter), and
      - the meetings page component   (the on-screen preview with its
        review-marker helpers),
    followed by the properties of the engine's specification.

    JavaScript strings are sequences of UTF-16 code units; a string is
    modelled as the list of its code units, each a number in [N].  String
    literals of the source are written with [js "..."]. *)

From Stdlib Require Import List Bool Arith NArith ZArith QArith Qround Lia Lqa.
From Stdlib Require Import Strings.String Strings.Ascii Numbers.DecimalString.
Import ListNotations.

Local Open Scope N_scope.
Local Open Scope list_scope.

(* ================================================================== *)
(** ** JavaScript string primitives used by the engine                 *)
(* ================================================================== *)

Module JS.

Definition jsstring := list N.

(** A source literal: every character of an ASCII literal is one code unit. *)
Definition js (s : string) : jsstring :=
  map N_of_ascii (list_ascii_of_string s).

(** [\d] – ASCII digits only (no [u] flag is used anywhere). *)
Definition isDigit (c : N) : bool := (48 <=? c) && (c <=? 57).

(** [[A-Z]] and [[a-zA-Z]]. *)
Definition isUpper (c : N) : bool := (65 <=? c) && (c <=? 90).
Definition isLower (c : N) : bool := (97 <=? c) && (c <=? 122).
Definition isLetter (c : N) : bool := isLower c || isUpper c.

(** [\s], and the characters removed by [String.prototype.trim]: the
    ECMAScript WhiteSpace and LineTerminator code points. *)
Definition isSpace (c : N) : bool :=
  (c =? 9) || (c =? 10) || (c =? 11) || (c =? 12) || (c =? 13) ||
  (c =? 32) || (c =? 160) || (c =? 5760) ||
  ((8192 <=? c) && (c <=? 8202)) ||
  (c =? 8232) || (c =? 8233) || (c =? 8239) || (c =? 8287) ||
  (c =? 12288) || (c =? 65279).

Fixpoint dropWhile (p : N -> bool) (s : jsstring) : jsstring :=
  match s with
  | [] => []
  | c :: s' => if p c then dropWhile p s' else s
  end.

Fixpoint takeWhile (p : N -> bool) (s : jsstring) : jsstring :=
  match s with
  | [] => []
  | c :: s' => if p c then c :: takeWhile p s' else []
  end.

Definition trimStart (s : jsstring) : jsstring := dropWhile isSpace s.
Definition trimEnd (s : jsstring) : jsstring := rev (dropWhile isSpace (rev s)).

(** [s.trim()] *)
Definition trim (s : jsstring) : jsstring := trimEnd (trimStart s).

(** [s.startsWith(p)] *)
Fixpoint startsWith (p s : jsstring) : bool :=
  match p, s with
  | [], _ => true
  | _ :: _, [] => false
  | a :: p', c :: s' => (a =? c) && startsWith p' s'
  end.

(** [s.includes(p)] *)
Fixpoint includes (p s : jsstring) : bool :=
  startsWith p s ||
  match s with
  | [] => false
  | _ :: s' => includes p s'
  end.

(** [s.split(sep)] for a one-character separator: never empty, the empty
    string splits into one empty piece. *)
Fixpoint splitChar (sep : N) (s : jsstring) : list jsstring :=
  match s with
  | [] => [[]]
  | c :: s' =>
      if c =? sep then [] :: splitChar sep s'
      else match splitChar sep s' with
           | l :: ls => (c :: l) :: ls
           | [] => [[c]]
           end
  end.

(** [s.replace(/\t/g, "    ")] *)
Definition replaceTabs (s : jsstring) : jsstring :=
  flat_map (fun c => if c =? 9 then [32; 32; 32; 32] else [c]) s.

(** [parseInt(s)] on a string of decimal digits. *)
Definition digitVal (c : N) : N := c - 48.
Definition parseInt (s : jsstring) : N :=
  fold_left (fun acc c => 10 * acc + digitVal c) s 0.

(** [String(n)] / [`${n}`] for a non-negative integer. *)
Definition numToString (n : N) : jsstring :=
  js (NilEmpty.string_of_uint (N.to_uint n)).

(** [arr.slice(a, b)] and [arr.slice(a)] for indices within [0 .. length];
    an end before the start gives the empty array. *)
Definition slice {A : Type} (a b : nat) (l : list A) : list A :=
  firstn (b - a) (skipn a l).
Definition sliceFrom {A : Type} (a : nat) (l : list A) : list A := skipn a l.

(** The index loop [for (i = 0; i < n; i++) if (p(l[i])) { r = i; break; }]:
    the first index satisfying [p], if any. *)
Fixpoint findFirst {A : Type} (p : A -> bool) (l : list A) : option nat :=
  match l with
  | [] => None
  | x :: l' => if p x then Some 0%nat else option_map S (findFirst p l')
  end.

(** The loop [for (i = n - 1; i >= 0; i--) if (p(l[i])) { r = i; break; }]:
    the last index satisfying [p], if any. *)
Fixpoint findLast {A : Type} (p : A -> bool) (l : list A) : option nat :=
  match l with
  | [] => None
  | x :: l' =>
      match findLast p l' with
      | Some i => Some (S i)
      | None => if p x then Some 0%nat else None
      end
  end.

End JS.

Import JS.

(* ================================================================== *)
(** ** Regular expressions shared by both files                        *)
(* ================================================================== *)

Module Regex.

(** [/^(\d+)\.\s+/] applied at the start of a line.  Both quantifiers are
    greedy and the character that has to follow each run is outside the
    run's class, so the only possible match takes the whole digit run and
    the whole white-space run.  Returns the matched text ([match[0]]) and
    what follows it. *)
Definition sectionNumPattern (t : jsstring) : option (jsstring * jsstring) :=
  let digits := takeWhile isDigit t in
  match digits, dropWhile isDigit t with
  | _ :: _, dot :: r =>
      if dot =? 46 then
        match takeWhile isSpace r with
        | [] => None
        | ws => Some (digits ++ [46] ++ ws, dropWhile isSpace r)
        end
      else None
  | _, _ => None
  end.

(** [/^\d+\.\s+/.test(t)] *)
Definition testSectionNum (t : jsstring) : bool :=
  match sectionNumPattern t with Some _ => true | None => false end.

(** [/^\d+\.\s+DISCUSSION/.test(t)] *)
Definition testDiscussionHeader (t : jsstring) : bool :=
  match sectionNumPattern t with
  | Some (_, rest) => startsWith (js "DISCUSSION") rest
  | None => false
  end.

(** [/^a\.\s/.test(t)] *)
Definition testSubItem (t : jsstring) : bool :=
  match t with
  | a :: dot :: c :: _ => (a =? 97) && (dot =? 46) && isSpace c
  | _ => false
  end.

(** [/^https?:\/\//.test(t)] *)
Definition testHttpUrl (t : jsstring) : bool :=
  startsWith (js "http://") t || startsWith (js "https://") t.

(** [t.split(/\s{4,}/)].  The scan moves one character at a time; when a
    white-space run of four or more begins at the current position the
    piece read so far is emitted and the run is skipped ([skip] counts the
    characters of the run still to pass). *)
Fixpoint splitGapsFrom (skip : nat) (cur : jsstring) (s : jsstring)
  : list jsstring :=
  match s with
  | [] => [rev cur]
  | c :: s' =>
      match skip with
      | S k => splitGapsFrom k cur s'
      | O =>
          let run := takeWhile isSpace s in
          if (4 <=? List.length run)%nat
          then rev cur :: splitGapsFrom (List.length run - 1) [] s'
          else splitGapsFrom 0 (c :: cur) s'
      end
  end.

Definition splitGaps (t : jsstring) : list jsstring := splitGapsFrom 0 [] t.

End Regex.

Import Regex.

(* ================================================================== *)
(** ** The meetings page: review markers and the screen renderer       *)
(* ================================================================== *)

Module MeetingsPage.

(** *** Review-marker helpers *)

(** A successful match of [/@(\d{1,2}):(\d{2})(?::(\d{2}))?/]: the three
    groups (the third may not take part) and the text after the match. *)
Record TsMatch := mkTsMatch {
  group1 : jsstring;
  group2 : jsstring;
  group3 : option jsstring;
  afterMatch : jsstring
}.

(** [:(\d{2})(?::(\d{2}))?] once group 1 is fixed; the optional group is
    greedy. *)
Definition tsTail (g1 s : jsstring) : option TsMatch :=
  match s with
  | colon :: a :: b :: r =>
      if (colon =? 58) && isDigit a && isDigit b then
        Some match r with
             | colon2 :: c :: d :: r' =>
                 if (colon2 =? 58) && isDigit c && isDigit d
                 then mkTsMatch g1 [a; b] (Some [c; d]) r'
                 else mkTsMatch g1 [a; b] None r
             | _ => mkTsMatch g1 [a; b] None r
             end
      else None
  | _ => None
  end.

(** The whole pattern tried at the first character: [\d{1,2}] first takes
    two digits and falls back to one. *)
Definition tsMatchAt (s : jsstring) : option TsMatch :=
  match s with
  | c0 :: d1 :: r1 =>
      if (c0 =? 64) && isDigit d1 then
        match
          match r1 with
          | d2 :: r2 => if isDigit d2 then tsTail [d1; d2] r2 else None
          | [] => None
          end
        with
        | Some m => Some m
        | None => tsTail [d1] r1
        end
      else None
  | _ => None
  end.

(** [marker.match(re)]: the leftmost position at which the pattern matches. *)
Fixpoint tsSearch (s : jsstring) : option TsMatch :=
  match tsMatchAt s with
  | Some m => Some m
  | None =>
      match s with
      | [] => None
      | _ :: s' => tsSearch s'
      end
  end.

Record Timestamp := mkTimestamp {
  display : jsstring;
  seconds : N
}.

Definition colon : jsstring := [58].

Definition parseReviewTimestamp (marker : jsstring) : option Timestamp :=
  match tsSearch marker with
  | None => None
  | Some m =>
      match group3 m with
      | Some g3 =>
          (* H:MM:SS *)
          let h := parseInt (group1 m) in
          let mi := parseInt (group2 m) in
          let s := parseInt g3 in
          Some (mkTimestamp (numToString h ++ colon ++ group2 m ++ colon ++ g3)
                            (h * 3600 + mi * 60 + s))
      | None =>
          (* MM:SS *)
          let mi := parseInt (group1 m) in
          let s := parseInt (group2 m) in
          Some (mkTimestamp (group1 m ++ colon ++ group2 m) (mi * 60 + s))
      end
  end.

(** [/\s*@\d{1,2}:\d{2}(?::\d{2})?\s*/] tried at the first character; the
    result is the text after the match. *)
Definition stripMatchAt (s : jsstring) : option jsstring :=
  match tsMatchAt (dropWhile isSpace s) with
  | Some m => Some (dropWhile isSpace (afterMatch m))
  | None => None
  end.

(** [.replace(/\s*@.../, " ")]: only the leftmost match is replaced. *)
Fixpoint replaceFirstTimestamp (s : jsstring) : jsstring :=
  match stripMatchAt s with
  | Some rest => 32 :: rest
  | None =>
      match s with
      | [] => []
      | c :: s' => c :: replaceFirstTimestamp s'
      end
  end.

(** [/\s+\]/] tried at the first character. *)
Definition closeMatchAt (s : jsstring) : option jsstring :=
  match s with
  | c :: _ =>
      if isSpace c then
        match dropWhile isSpace s with
        | b :: rest => if b =? 93 then Some rest else None
        | [] => None
        end
      else None
  | [] => None
  end.

(** [.replace(/\s+\]/, "]")] *)
Fixpoint replaceFirstClose (s : jsstring) : jsstring :=
  match closeMatchAt s with
  | Some rest => 93 :: rest
  | None =>
      match s with
      | [] => []
      | c :: s' => c :: replaceFirstClose s'
      end
  end.

Definition stripTimestamp (marker : jsstring) : jsstring :=
  replaceFirstClose (replaceFirstTimestamp marker).

(** [/\[REVIEW:[^\]]*\]/] tried at the first character: the matched marker
    and the text after it. *)
Definition markerMatchAt (s : jsstring) : option (jsstring * jsstring) :=
  if startsWith (js "[REVIEW:") s then
    let r := skipn 8 s in
    let inner := takeWhile (fun c => negb (c =? 93)) r in
    match dropWhile (fun c => negb (c =? 93)) r with
    | _ :: rest => Some (js "[REVIEW:" ++ inner ++ [93], rest)
    | [] => None
    end
  else None.

(** [/^\[REVIEW:[^\]]*\]$/.test(part)] *)
Definition isReviewMarker (part : jsstring) : bool :=
  match markerMatchAt part with
  | Some (_, []) => true
  | _ => false
  end.

(** [text.split(/(\[REVIEW:[^\]]*\])/g)]: the pieces between the markers
    alternate with the captured markers.  [skip] counts the characters of
    the marker just emitted that are still to be passed. *)
Fixpoint splitMarkersFrom (skip : nat) (cur : jsstring) (s : jsstring)
  : list jsstring :=
  match s with
  | [] => [rev cur]
  | c :: s' =>
      match skip with
      | S k => splitMarkersFrom k cur s'
      | O =>
          match markerMatchAt s with
          | Some (m, _) =>
              rev cur :: m :: splitMarkersFrom (List.length m - 1) [] s'
          | None => splitMarkersFrom 0 (c :: cur) s'
          end
      end
  end.

Definition splitMarkers (text : jsstring) : list jsstring :=
  splitMarkersFrom 0 [] text.

(** [text.match(/\[REVIEW:[^\]]*\]/g)]: all matches from left to right,
    each search resuming after the previous match ([skip] counts the
    characters of the last match still to be passed). *)
Fixpoint matchMarkersFrom (skip : nat) (s : jsstring) : list jsstring :=
  match s with
  | [] => []
  | c :: s' =>
      match skip with
      | S k => matchMarkersFrom k s'
      | O =>
          match markerMatchAt s with
          | Some (m, _) => m :: matchMarkersFrom (List.length m - 1) s'
          | None => matchMarkersFrom 0 s'
          end
      end
  end.

(** [matches ? matches.length : 0] *)
Definition countReviewMarkers (text : jsstring) : nat :=
  List.length (matchMarkersFrom 0 text).

(** One [<span>] of [ReviewText]. *)
Inductive Span :=
| PlainSpan (text : jsstring)
| ReviewSpan (displayText : jsstring) (ts : option Timestamp)
             (link : option jsstring).

(** A video URL is usable when it is a non-empty string. *)
Definition canLink (videoUrl : option jsstring) : option jsstring :=
  match videoUrl with
  | Some (c :: u) => Some (c :: u)
  | _ => None
  end.

Definition ReviewText (text : jsstring) (videoUrl : option jsstring)
  : list Span :=
  map (fun part =>
         if negb (isReviewMarker part) then PlainSpan part
         else
           let ts := parseReviewTimestamp part in
           let displayText := stripTimestamp part in
           ReviewSpan displayText ts
             match canLink videoUrl, ts with
             | Some u, Some t =>
                 Some (u ++ js "?seekto=" ++ numToString (seconds t))
             | Some u, None => Some u
             | None, _ => None
             end)
      (splitMarkers text).

(** *** Line predicates of the screen renderer *)

(** [letters.replace(/[^A-Z]/g, "").length / letters.length > 0.7].  Both
    lengths are integers and the divisor is positive, and for every length
    a string can have the rounded quotient exceeds the double nearest to
    0.7 exactly when [10 * upper > 7 * letters]. *)
Definition isAllCaps (text : jsstring) : bool :=
  let letters := filter isLetter text in
  if (List.length letters =? 0)%nat then false
  else (7 * List.length letters <? 10 * List.length (filter isUpper letters))%nat.

Definition isFullWidthLine (text : jsstring) : bool :=
  startsWith (js "A Worksession") text || startsWith (js "A Regular") text ||
  startsWith (js "A Combined") text ||
  startsWith (js "Present were") text || startsWith (js "Also present") text ||
  startsWith (js "The Township Clerk advised") text ||
  startsWith (js "This meeting") text ||
  startsWith (js "http") text || startsWith (js "On a motion") text ||
  startsWith (js "Hearing no further") text.


(** *** [MinutesDocument] *)

Definition isTitleBoundary (line : jsstring) : bool :=
  let t := trim line in
  startsWith (js "A Worksession") t || startsWith (js "A Regular") t ||
  startsWith (js "A Combined") t.

(** [let titleEnd = 0; for (...) { if (...) { titleEnd = i; break; } }] *)
Definition findTitleEnd (lines : list jsstring) : nat :=
  match findFirst isTitleBoundary lines with
  | Some i => i
  | None => 0%nat
  end.

(** [let sigStart = lines.length; for (i = length - 1; ...) ...] *)
Definition findSigStart (lines : list jsstring) : nat :=
  match findLast (includes (js "___")) lines with
  | Some i => i
  | None => List.length lines
  end.

(** The content of a paragraph: an external link or review-aware text. *)
Inductive Content :=
| LinkContent (href : jsstring)
| TextContent (spans : list Span).

Definition paragraphContent (trimmed : jsstring) (videoUrl : option jsstring)
  : Content :=
  if testHttpUrl trimmed then LinkContent trimmed
  else TextContent (ReviewText trimmed videoUrl).

(** The elements pushed to [bodyElements]. *)
Inductive Element :=
| BlankElement                                     (* <div height 11px> *)
| HeaderElement (numText : jsstring) (title : list Span)
                                                   (* both spans weight 700 *)
| IndentedElement (bold : bool) (content : Content)
                                                   (* <p paddingLeft 36px> *)
| FullWidthElement (content : Content).            (* <p> without style *)

Record SectionState := mkSectionState {
  insideSection : bool;
  inDiscussion : bool
}.

(** One iteration of the body loop: the element pushed and the new state. *)
Definition bodyStep (videoUrl : option jsstring) (st : SectionState)
  (line : jsstring) : Element * SectionState :=
  let trimmed := trim line in
  match trimmed with
  | [] => (BlankElement, st)
  | _ =>
      let inDisc :=
        if testDiscussionHeader trimmed then true
        else if testSectionNum trimmed && negb (includes (js "DISCUSSION") trimmed)
             then false
             else inDiscussion st in
      match sectionNumPattern trimmed with
      | Some (numText, _) =>
          let rest := skipn (List.length numText) trimmed in
          (HeaderElement numText (ReviewText rest videoUrl),
           mkSectionState true inDisc)
      | None =>
          if insideSection st && negb (isFullWidthLine trimmed) then
            let bold :=
              isAllCaps trimmed ||
              (inDisc &&
               (startsWith (js "Councilmember") trimmed ||
                startsWith (js "Council President") trimmed ||
                startsWith (js "Council Vice President") trimmed ||
                testSubItem trimmed)) in
            (IndentedElement bold (paragraphContent trimmed videoUrl),
             mkSectionState (insideSection st) inDisc)
          else
            let inside :=
              if startsWith (js "On a motion") trimmed ||
                 startsWith (js "Hearing no further") trimmed
              then false else insideSection st in
            (FullWidthElement (paragraphContent trimmed videoUrl),
             mkSectionState inside inDisc)
      end
  end.

Fixpoint bodyLoop (videoUrl : option jsstring) (st : SectionState)
  (bodyLines : list jsstring) : list Element * SectionState :=
  match bodyLines with
  | [] => ([], st)
  | line :: rest =>
      let (e, st1) := bodyStep videoUrl st line in
      let (es, st2) := bodyLoop videoUrl st1 rest in
      (e :: es, st2)
  end.

(** The loop over [sigLines] filling [sigNames] and [sigTitles]. *)
Definition sigStep (acc : list jsstring * list jsstring) (line : jsstring)
  : list jsstring * list jsstring :=
  let (names, titles) := acc in
  let t := trim line in
  if includes (js "___") t || (List.length t =? 0)%nat then acc
  else
    let parts := splitGaps t in
    let pushed :=
      match parts with
      | p0 :: p1 :: _ => [trim p0; trim p1]
      | _ => [t]
      end in
    if (List.length names <? 2)%nat then (names ++ pushed, titles)
    else (names, titles ++ pushed).

Definition parseSignature (sigLines : list jsstring)
  : list jsstring * list jsstring :=
  fold_left sigStep sigLines ([], []).

(** [arr[i] || dflt]: a missing or empty entry gives the default. *)
Definition orElse (arr : list jsstring) (i : nat) (dflt : jsstring) : jsstring :=
  match nth_error arr i with
  | Some (c :: s) => c :: s
  | _ => dflt
  end.

Record SignatureView := mkSignatureView {
  nameLeft : jsstring;
  nameRight : jsstring;
  titleLeft : jsstring;
  titleRight : jsstring
}.

Record Rendered := mkRendered {
  titleBlock : list jsstring;          (* centered, weight 700 *)
  bodyElements : list Element;
  signatureBlock : option SignatureView (* absent when no name was found *)
}.

(** The three slices taken from [lines]. *)
Record Segments := mkSegments {
  titleLines : list jsstring;
  bodyLines : list jsstring;
  sigLines : list jsstring
}.

Definition segment (lines : list jsstring) : Segments :=
  let titleEnd := findTitleEnd lines in
  let sigStart := findSigStart lines in
  mkSegments
    (filter (fun l => negb (List.length (trim l) =? 0)%nat) (slice 0 titleEnd lines))
    (slice titleEnd sigStart lines)
    (sliceFrom sigStart lines).

Definition MinutesDocument (text : jsstring) (videoUrl : option jsstring)
  : Rendered :=
  let lines := splitChar 10 text in
  let seg := segment lines in
  let body :=
    fst (bodyLoop videoUrl (mkSectionState false false) (bodyLines seg)) in
  let (sigNames, sigTitles) := parseSignature (sigLines seg) in
  mkRendered
    (map trim (titleLines seg))
    body
    (if (0 <? List.length sigNames)%nat
     then Some (mkSignatureView (orElse sigNames 0 []) (orElse sigNames 1 [])
                                (orElse sigTitles 0 []) (orElse sigTitles 1 []))
     else None).

End MeetingsPage.

(* ================================================================== *)
(** ** [minutes-pdf.ts]: the pagination renderer                       *)
(* ================================================================== *)

Module MinutesPdf.

(** *** Page geometry (points)

    Coordinates and heights are JavaScript numbers; they are modelled as
    rationals. *)

Definition PAGE_width : Q := 612%Q.
Definition PAGE_height : Q := 792%Q.
Definition PAGE_marginTop : Q := 72%Q.
Definition PAGE_marginBottom : Q := 72%Q.
Definition PAGE_marginLeft : Q := 72%Q.
Definition PAGE_marginRight : Q := 72%Q.
Definition PAGE_contentWidth : Q :=
  (PAGE_width - PAGE_marginLeft - PAGE_marginRight)%Q.
Definition PAGE_bottomLimit : Q :=
  (PAGE_height - PAGE_marginBottom - 14)%Q.

(** [doc.page.maxY()]: the page height less the bottom margin the
    document was created with; the library starts no wrapped line that
    would end below it. *)
Definition PAGE_maxY : Q := (PAGE_height - PAGE_marginBottom)%Q.

Definition FONT_SIZE : Q := 10%Q.
Definition LINE_GAP : Q := 1%Q.
Definition LINE_HEIGHT : Q := (FONT_SIZE + LINE_GAP)%Q.
Definition SECTION_INDENT : Q := 36%Q.

(** [const [y, m, d] = dateStr.split("-"); return `${m}/${d}/${y}`;] – a
    part that is missing is [undefined] and prints as "undefined". *)
Definition formatHeaderDate (dateStr : jsstring) : jsstring :=
  let parts := splitChar 45 dateStr in
  let part (i : nat) := nth i parts (js "undefined") in
  part 1%nat ++ js "/" ++ part 2%nat ++ js "/" ++ part 0%nat.

(** *** Line predicates *)

(** [upper / letters.length > 0.7], see [MeetingsPage.isAllCaps] for the
    integer form of the comparison. *)
Definition isAllCaps (text : jsstring) : bool :=
  let letters := filter isLetter text in
  if (List.length letters =? 0)%nat then false
  else
    let upper := List.length (filter isUpper letters) in
    (7 * List.length letters <? 10 * upper)%nat.

Definition isFullWidthLine (text : jsstring) : bool :=
  startsWith (js "A Worksession") text ||
  startsWith (js "A Regular") text ||
  startsWith (js "A Combined") text ||
  startsWith (js "Present were") text ||
  startsWith (js "Also present") text ||
  startsWith (js "The Township Clerk advised") text ||
  startsWith (js "This meeting") text ||
  startsWith (js "http") text ||
  startsWith (js "On a motion") text ||
  startsWith (js "Hearing no further") text.

Definition isBoldLine (text : jsstring) (inDiscussion : bool) : bool :=
  if isAllCaps text then true
  else if inDiscussion then
    if startsWith (js "Councilmember") text ||
       startsWith (js "Council President") text ||
       startsWith (js "Council Vice President") text then true
    else if testSubItem text then true
    else false
  else false.

(** *** Output of the renderer *)

(** A block of text handed to [doc.text] with a wrapping width: the
    value of [pageNum] and the position it was placed at, and the height
    it takes once wrapped.  [page] is the renderer's own counter, the
    number its footer prints; pages the library adds while it wraps a
    block are not counted in it. *)
Record TextBox := mkTextBox {
  page : nat;
  top : Q;
  height : Q;
  content : jsstring;
  left : Q;
  width : Q;
  bold : bool;
  centered : bool
}.

(** What one body line puts on the page. *)
Inductive BodyItem :=
| Gap                                      (* [blankLine()] *)
| Header (numText : jsstring) (title : option TextBox)
                                           (* number at the margin, bold *)
| Text (box : TextBox).                    (* [writeText] *)

Record SignatureRender := mkSignatureRender {
  sigPage : nat;
  ruleTop : Q;
  namesTop : Q;
  titlesTop : Q;
  nameLeft : jsstring;
  nameRight : jsstring;
  titleLeft : jsstring;
  titleRight : jsstring
}.

(** [pageCount] is the value of [pageNum] when the last footer is
    written. *)
Record PdfDocument := mkPdfDocument {
  titleBoxes : list TextBox;
  bodyItems : list BodyItem;
  signature : SignatureRender;
  pageCount : nat
}.

(** The closure variables [y] and [pageNum]. *)
Record Cursor := mkCursor {
  y : Q;
  pageNum : nat
}.

Record SectionState := mkSectionState {
  insideSection : bool;
  inDiscussion : bool
}.

Definition isTitleBoundary (line : jsstring) : bool :=
  let t := trim line in
  startsWith (js "A Worksession") t || startsWith (js "A Regular") t ||
  startsWith (js "A Combined") t.

Definition findTitleEnd (lines : list jsstring) : nat :=
  match findFirst isTitleBoundary lines with
  | Some i => i
  | None => 0%nat
  end.

Definition findSigStart (lines : list jsstring) : nat :=
  match findLast (includes (js "___")) lines with
  | Some i => i
  | None => List.length lines
  end.

(** The three slices taken from [lines]. *)
Record Segments := mkSegments {
  titleLines : list jsstring;
  bodyLines : list jsstring;
  sigLines : list jsstring
}.

Definition segment (lines : list jsstring) : Segments :=
  let titleEnd := findTitleEnd lines in
  let sigStart := findSigStart lines in
  mkSegments
    (filter (fun l => (0 <? List.length (trim l))%nat) (slice 0 titleEnd lines))
    (slice titleEnd sigStart lines)
    (sliceFrom sigStart lines).

Section Renderer.

(** [doc.heightOfString(text, { width, lineGap })] in the font chosen by
    the bold flag: the height of the text wrapped to [width].  The font
    metrics belong to the PDF library; the renderer is defined for an
    arbitrary measure. *)
Variable heightOfString : jsstring -> Q -> bool -> Q.

(** [doc.y] after [doc.text(text, x, top, { width, lineGap })] for a
    block whose measured height takes it below the bottom margin of the
    page it was started on: the library moves the lines that no longer
    fit to pages it adds itself, each begun at the top margin, and
    leaves [doc.y] below the last line.  Where that is depends on the
    line metrics, which belong to the library as well; the renderer is
    defined for an arbitrary continuation. *)
Variable continuedY : jsstring -> Q -> bool -> Q -> Q.

(** [doc.y] once [doc.text] has placed a wrapped block at [top]: below
    the block when it ends above the bottom margin, the library's
    position on the continued page when it does not. *)
Definition textEnd (text : jsstring) (w : Q) (is_bold : bool) (top : Q) : Q :=
  let textHeight := heightOfString text w is_bold in
  if Qle_bool (top + textHeight) PAGE_maxY then (top + textHeight)%Q
  else continuedY text w is_bold top.

(** [writePageFooter(); pageNum++; doc.addPage(); y = PAGE.marginTop;
    writePageHeader();] – the running header and the footer are drawn
    with [y] saved and restored, they do not move the cursor. *)
Definition startNewPage (c : Cursor) : Cursor :=
  mkCursor PAGE_marginTop (S (pageNum c)).

(** [if (y + needed > PAGE.bottomLimit) startNewPage();] *)
Definition ensureSpace (needed : Q) (c : Cursor) : Cursor :=
  if Qle_bool (y c + needed) PAGE_bottomLimit then c else startNewPage c.

(** [ensureSpace(textHeight); doc.text(text, x, y, ...); y = doc.y;] –
    [pageNum] is advanced by [startNewPage] only, not by a page the
    library adds while it wraps the block. *)
Definition writeText (text : jsstring) (x w : Q) (align_center is_bold : bool)
  (c : Cursor) : TextBox * Cursor :=
  let textHeight := heightOfString text w is_bold in
  let c1 := ensureSpace textHeight c in
  (mkTextBox (pageNum c1) (y c1) textHeight text x w is_bold align_center,
   mkCursor (textEnd text w is_bold (y c1)) (pageNum c1)).

Definition blankLine (c : Cursor) : Cursor :=
  mkCursor (y c + LINE_HEIGHT) (pageNum c).

(** [for (const line of titleLines) writeText(line.trim(), ..., center, bold)] *)
Fixpoint renderTitle (titleLines : list jsstring) (c : Cursor)
  : list TextBox * Cursor :=
  match titleLines with
  | [] => ([], c)
  | line :: rest =>
      let (b, c1) :=
        writeText (trim line) PAGE_marginLeft PAGE_contentWidth true true c in
      let (bs, c2) := renderTitle rest c1 in
      (b :: bs, c2)
  end.

(** One iteration of the body loop. *)
Definition bodyStep (st : SectionState) (c : Cursor) (line : jsstring)
  : BodyItem * SectionState * Cursor :=
  let trimmed := trim line in
  match trimmed with
  | [] => (Gap, st, blankLine c)
  | _ =>
      let inDisc :=
        if testDiscussionHeader trimmed then true
        else if testSectionNum trimmed && negb (includes (js "DISCUSSION") trimmed)
             then false
             else inDiscussion st in
      match sectionNumPattern trimmed with
      | Some (numText, _) =>
          let rest := skipn (List.length numText) trimmed in
          let c1 := ensureSpace (LINE_HEIGHT * 2)%Q c in
          (* the number is drawn at [y] without a line break: [doc.y] stays *)
          match rest with
          | _ :: _ =>
              let w := (PAGE_contentWidth - SECTION_INDENT)%Q in
              let h := heightOfString rest w true in
              (Header numText
                 (Some (mkTextBox (pageNum c1) (y c1) h rest
                          (PAGE_marginLeft + SECTION_INDENT)%Q w true false)),
               mkSectionState true inDisc,
               (* [y = doc.y] *)
               mkCursor (textEnd rest w true (y c1)) (pageNum c1))
          | [] =>
              (Header numText None, mkSectionState true inDisc, c1)
          end
      | None =>
          if insideSection st && negb (isFullWidthLine trimmed) then
            let is_bold := isBoldLine trimmed inDisc in
            let (b, c1) :=
              writeText trimmed (PAGE_marginLeft + SECTION_INDENT)%Q
                (PAGE_contentWidth - SECTION_INDENT)%Q false is_bold c in
            (Text b, mkSectionState (insideSection st) inDisc, c1)
          else
            let inside1 :=
              if startsWith (js "On a motion") trimmed then false
              else insideSection st in
            let inside2 :=
              if startsWith (js "Hearing no further") trimmed then false
              else inside1 in
            let (b, c1) :=
              writeText trimmed PAGE_marginLeft PAGE_contentWidth false false c in
            (Text b, mkSectionState inside2 inDisc, c1)
      end
  end.

Fixpoint bodyLoop (st : SectionState) (c : Cursor) (bodyLines : list jsstring)
  : list BodyItem * SectionState * Cursor :=
  match bodyLines with
  | [] => ([], st, c)
  | line :: rest =>
      let '(item, st1, c1) := bodyStep st c line in
      let '(items, st2, c2) := bodyLoop st1 c1 rest in
      (item :: items, st2, c2)
  end.

(** The loop over [sigLines] filling [nameLinesParsed] and
    [titleLinesParsed]. *)
Definition sigStep (acc : list jsstring * list jsstring) (line : jsstring)
  : list jsstring * list jsstring :=
  let (names, titles) := acc in
  let t := trim line in
  if includes (js "___") t || (List.length t =? 0)%nat then acc
  else if (List.length names <? 2)%nat then
    match splitGaps t with
    | p0 :: p1 :: _ => (names ++ [trim p0; trim p1], titles)
    | _ => (names ++ [t], titles)
    end
  else
    match splitGaps t with
    | p0 :: p1 :: _ => (names, titles ++ [trim p0; trim p1])
    | _ => (names, titles ++ [t])
    end.

Definition parseSignature (sigLines : list jsstring)
  : list jsstring * list jsstring :=
  fold_left sigStep sigLines ([], []).

(** [arr[i] || dflt] *)
Definition orElse (arr : list jsstring) (i : nat) (dflt : jsstring) : jsstring :=
  match nth_error arr i with
  | Some (c :: s) => c :: s
  | _ => dflt
  end.

Definition generateMinutesPDF (minutes : jsstring) : PdfDocument :=
  let c0 := mkCursor PAGE_marginTop 1 in
  let lines := splitChar 10 (replaceTabs minutes) in
  let seg := segment lines in
  (* title block *)
  let (tboxes, c1) := renderTitle (titleLines seg) (blankLine (blankLine c0)) in
  let c2 := blankLine (blankLine c1) in
  (* body *)
  let '(items, _, c3) :=
    bodyLoop (mkSectionState false false) c2 (bodyLines seg) in
  (* signature block *)
  let c4 := blankLine (blankLine (ensureSpace 60%Q c3)) in
  let (nameLinesParsed, titleLinesParsed) := parseSignature (sigLines seg) in
  let yNames := (y c4 + 4)%Q in
  let yTitles := (yNames + LINE_HEIGHT)%Q in
  mkPdfDocument tboxes items
    (mkSignatureRender (pageNum c4) (y c4) yNames yTitles
       (orElse nameLinesParsed 0 (js "Sam Joshi"))
       (orElse nameLinesParsed 1 (js "Patricia Benedetto, RMC"))
       (orElse titleLinesParsed 0 (js "Council President"))
       (orElse titleLinesParsed 1 (js "Municipal Clerk")))
    (pageNum c4).

End Renderer.

End MinutesPdf.

(* ================================================================== *)
(** ** What each traversal assigns to a line                           *)
(* ================================================================== *)

Module Classification.

Inductive Role := title | sectionHeader | sectionBody | fullWidth | blank.

(** (role, bold, indentLevel) *)
Definition Triple : Type := Role * bool * nat.

(** Screen renderer: read off the element that was pushed. *)
Definition elementTriple (e : MeetingsPage.Element) : Triple :=
  match e with
  | MeetingsPage.BlankElement => (blank, false, 0%nat)
  | MeetingsPage.HeaderElement _ _ => (sectionHeader, true, 0%nat)
  | MeetingsPage.IndentedElement b _ => (sectionBody, b, 1%nat)
  | MeetingsPage.FullWidthElement _ => (fullWidth, false, 0%nat)
  end.

Definition screenTriples (r : MeetingsPage.Rendered) : list Triple :=
  map (fun _ => (title, true, 0%nat)) (MeetingsPage.titleBlock r) ++
  map elementTriple (MeetingsPage.bodyElements r).

(** Pagination renderer: read off the item placed on the page; a text box
    that starts at the left margin is full-width, one that starts at the
    section indent is section body. *)
Definition itemTriple (i : MinutesPdf.BodyItem) : Triple :=
  match i with
  | MinutesPdf.Gap => (blank, false, 0%nat)
  | MinutesPdf.Header _ _ => (sectionHeader, true, 0%nat)
  | MinutesPdf.Text b =>
      if Qeq_bool (MinutesPdf.left b) MinutesPdf.PAGE_marginLeft
      then (fullWidth, MinutesPdf.bold b, 0%nat)
      else (sectionBody, MinutesPdf.bold b, 1%nat)
  end.

Definition pdfTriples (d : MinutesPdf.PdfDocument) : list Triple :=
  map (fun b => (title, MinutesPdf.bold b, 0%nat)) (MinutesPdf.titleBoxes d) ++
  map itemTriple (MinutesPdf.bodyItems d).


Definition headerBoxes (d : MinutesPdf.PdfDocument) : list MinutesPdf.TextBox :=
  flat_map (fun i => match i with
                     | MinutesPdf.Header _ (Some b) => [b]
                     | _ => []
                     end)
           (MinutesPdf.bodyItems d).

(** A box stays above the bottom content limit. *)
Definition fitsPage (b : MinutesPdf.TextBox) : Prop :=
  (MinutesPdf.top b + MinutesPdf.height b <= MinutesPdf.PAGE_bottomLimit)%Q.

(** A box ends above the bottom margin of the page it was started on:
    the library draws all of it there, no line of it goes to another
    page. *)
Definition staysOnPage (b : MinutesPdf.TextBox) : Prop :=
  (MinutesPdf.top b + MinutesPdf.height b <= MinutesPdf.PAGE_maxY)%Q.

End Classification.

Import Classification.

(* ================================================================== *)
(** ** Vocabulary of the statements                                    *)
(* ================================================================== *)

Module Statements.

(** [s.toUpperCase()] on ASCII letters, for stating a case-insensitive
    search. *)
Definition toUpperAscii (s : jsstring) : jsstring :=
  map (fun c => if isLower c then c - 32 else c) s.

(** How [inDiscussion] changes on a trimmed, non-blank line: set by a
    numbered header whose title begins with DISCUSSION, cleared by a
    numbered header that does not contain DISCUSSION, kept otherwise. *)
Definition discussionAfter (before : bool) (trimmed : jsstring) : bool :=
  match sectionNumPattern trimmed with
  | Some (_, rest) =>
      if startsWith (js "DISCUSSION") rest then true
      else if includes (js "DISCUSSION") trimmed then before
      else false
  | None => before
  end.

(** A literal keeps its [startsWith] answer when tabs become four spaces:
    it has no tab, and each of its spaces is followed by a character that
    is neither a space nor a tab. *)
Fixpoint tabSafe (lit : jsstring) : bool :=
  match lit with
  | [] => true
  | a :: lit' =>
      negb (a =? 9) &&
      (if a =? 32
       then match lit' with
            | b :: _ => negb (b =? 32) && negb (b =? 9)
            | [] => false
            end
       else true) &&
      tabSafe lit'
  end.

(** [":dd"] follows: the optional seconds group would take part. *)
Definition continuesWithSeconds (post : jsstring) : bool :=
  match post with
  | c :: a :: b :: _ => (c =? 58) && isDigit a && isDigit b
  | _ => false
  end.

(** A run of decimal digits whose length lies between [lo] and [hi]. *)
Definition digitsOfLength (lo hi : nat) (g : jsstring) : bool :=
  forallb isDigit g && (lo <=? List.length g)%nat && (List.length g <=? hi)%nat.

(** No [@] occurs in the text. *)
Definition noAt (s : jsstring) : bool := negb (existsb (N.eqb 64) s).

(** Two decimal digits of a number below 100, as written in a time. *)
Definition twoDigits (n : N) : jsstring := [48 + n / 10; 48 + n mod 10].

(** No match of the timestamp pattern starts at a position inside [pre]
    when [pre] is followed by [rest]: a match that starts where [rest]
    starts is then the leftmost one of [pre ++ rest]. *)
Fixpoint noMatchBefore (pre rest : jsstring) : bool :=
  match pre with
  | [] => true
  | _ :: pre' =>
      match MeetingsPage.tsMatchAt (pre ++ rest) with
      | Some _ => false
      | None => noMatchBefore pre' rest
      end
  end.




End Statements.

Import Statements.

(* ================================================================== *)
(** ** Sample documents                                                *)
(* ================================================================== *)

Module Samples.

(** A fixed-pitch stand-in for the font metrics, used to run the
    pagination on concrete documents: every character is 6pt wide, a
    wrapped line is 11pt high. *)
Definition fixedPitchHeight (text : jsstring) (w : Q) (_ : bool) : Q :=
  let perLine := Z.max 1 (Qfloor (w / 6)) in
  let n := Z.of_nat (List.length text) in
  inject_Z (11 * ((n + perLine - 1) / perLine)).

(** The matching stand-in for the continuation: lines of 11pt, 10pt of
    glyphs and 1pt of gap.  The lines whose glyphs still end above the
    bottom margin stay on the page; when these are not all, the others
    fill further pages from the top margin, 59 lines to a page. *)
Definition fixedPitchContinued (text : jsstring) (w : Q) (b : bool) (top : Q)
  : Q :=
  let n := Qfloor (fixedPitchHeight text w b / 11) in
  let fit := Z.max 0 (Qfloor ((710 - top) / 11) + 1) in
  if (n <=? fit)%Z then (top + inject_Z (11 * n))%Q
  else inject_Z (72 + 11 * ((n - fit - 1) mod 59 + 1)).

(** The document of the specification's concrete scenario. *)
Definition scenario : jsstring :=
  js "TOWNSHIP OF EDISON" ++ [10] ++
  js "MINUTES" ++ [10] ++
  js "A Regular Meeting of the Council was held..." ++ [10] ++
  js "1. CALL TO ORDER" ++ [10] ++
  js "The meeting was called to order at 7:00 PM." ++ [10] ++
  js "4. DISCUSSION ITEMS" ++ [10] ++
  js "Councilmember Smith raised [REVIEW: budget concern @12:05]" ++ [10] ++
  js "On a motion, the meeting was adjourned." ++ [10] ++
  js "_________________        _________________" ++ [10] ++
  js "Jane Doe                 John Roe" ++ [10] ++
  js "Council President         Township Clerk".



End Samples.

Import Samples.

(* ================================================================== *)
(** ** Further vocabulary: layout order and text shapes                *)
(* ================================================================== *)

Module Layout.

(** All text blocks of a paginated document in the order in which they
    are drawn: title lines, then for each body line its text block or the
    title of its header. *)
Definition allBoxes (d : MinutesPdf.PdfDocument) : list MinutesPdf.TextBox :=
  MinutesPdf.titleBoxes d ++
  flat_map (fun i => match i with
                     | MinutesPdf.Text b => [b]
                     | MinutesPdf.Header _ (Some b) => [b]
                     | _ => []
                     end)
           (MinutesPdf.bodyItems d).

(** The position (page, height on the page) [p2, y2] is not before
    [p1, y1]. *)
Definition notBefore (p1 : nat) (y1 : Q) (p2 : nat) (y2 : Q) : Prop :=
  (p1 < p2)%nat \/ (p1 = p2 /\ (y1 <= y2)%Q).

(** Where a block ends, when it ends above the bottom margin of the page
    it was started on.  A block that reaches further is continued by the
    library on pages of its own, and the renderer's page counter says
    nothing about where it ends. *)
Definition endOfBox (b : MinutesPdf.TextBox) : option (nat * Q) :=
  if Qle_bool (MinutesPdf.top b + MinutesPdf.height b) MinutesPdf.PAGE_maxY
  then Some (MinutesPdf.page b, (MinutesPdf.top b + MinutesPdf.height b)%Q)
  else None.

(** [p, y] is not before the position [o], when there is one. *)
Definition after (o : option (nat * Q)) (p : nat) (y : Q) : Prop :=
  match o with
  | Some (p0, y0) => notBefore p0 y0 p y
  | None => True
  end.

(** Each block starts where the previous one ended or later, the first
    one not before [o]. *)
Fixpoint chainFrom (o : option (nat * Q)) (boxes : list MinutesPdf.TextBox)
  : Prop :=
  match boxes with
  | [] => True
  | b :: bs =>
      after o (MinutesPdf.page b) (MinutesPdf.top b) /\
      chainFrom (endOfBox b) bs
  end.

(** Where the last block of a sequence ends, or [o] when there is none. *)
Fixpoint endOf (o : option (nat * Q)) (boxes : list MinutesPdf.TextBox)
  : option (nat * Q) :=
  match boxes with
  | [] => o
  | b :: bs => endOf (endOfBox b) bs
  end.

(** A sequence of blocks drawn from a cursor: the blocks form a chain and
    the cursor afterwards is not before the end of the last one. *)
Definition drawn (o : option (nat * Q)) (boxes : list MinutesPdf.TextBox)
  (c' : MinutesPdf.Cursor) : Prop :=
  chainFrom o boxes /\
  after (endOf o boxes) (MinutesPdf.pageNum c') (MinutesPdf.y c').


(** The text block of one body item, if it has one. *)
Definition boxOf (i : MinutesPdf.BodyItem) : list MinutesPdf.TextBox :=
  match i with
  | MinutesPdf.Text b => [b]
  | MinutesPdf.Header _ (Some b) => [b]
  | _ => []
  end.

(** Some white-space character stands directly before a closing bracket. *)
Fixpoint spaceBeforeBracket (s : jsstring) : bool :=
  match s with
  | a :: (b :: _) as s' => (isSpace a && (b =? 93)) || spaceBeforeBracket s'
  | _ => false
  end.

(** No two white-space characters stand next to each other. *)
Fixpoint singleSpaced (s : jsstring) : bool :=
  match s with
  | a :: (b :: _) as s' => negb (isSpace a && isSpace b) && singleSpaced s'
  | _ => true
  end.

(** The first character is white space. *)
Definition startsWithSpace (s : jsstring) : bool :=
  match s with
  | c :: _ => isSpace c
  | [] => false
  end.

(** The last character is white space. *)
Fixpoint endsWithSpace (s : jsstring) : bool :=
  match s with
  | [] => false
  | c :: [] => isSpace c
  | _ :: s' => endsWithSpace s'
  end.

(** [[^\]]] *)
Definition notBracket (c : N) : bool := negb (c =? 93).

Definition isReviewSpan (sp : MeetingsPage.Span) : bool :=
  match sp with
  | MeetingsPage.ReviewSpan _ _ _ => true
  | MeetingsPage.PlainSpan _ => false
  end.

Definition isBlankElement (e : MeetingsPage.Element) : bool :=
  match e with
  | MeetingsPage.BlankElement => true
  | _ => false
  end.

Definition isGap (i : MinutesPdf.BodyItem) : bool :=
  match i with
  | MinutesPdf.Gap => true
  | _ => false
  end.

Definition roleIsBlank (t : Triple) : bool :=
  match fst (fst t) with blank => true | _ => false end.

Definition isBlankLine (l : jsstring) : bool :=
  (List.length (trim l) =? 0)%nat.

End Layout.

Import Layout.

(* ================================================================== *)
(** ** Properties                                                      *)
(* ================================================================== *)

(** *** The all-caps predicate *)

Lemma filter_none (p : N -> bool) (s : jsstring) :
  existsb p s = false -> filter p s = [].
Proof.
  induction s as [|c s IH]; simpl; [reflexivity|].
  destruct (p c); simpl; [discriminate|exact IH].
Qed.

Lemma startsWith_letter_none (text : jsstring) (c : N) (lit : jsstring) :
  existsb isLetter text = false -> isLetter c = true ->
  startsWith (c :: lit) text = false.
Proof.
  intros H Hc. destruct text as [|d text]; [reflexivity|].
  cbn [existsb] in H. apply orb_false_elim in H. destruct H as [Hd _].
  cbn [startsWith]. destruct (N.eqb_spec c d) as [->|_]; [|reflexivity].
  congruence.
Qed.

(** C9.  A line without any ASCII letter is never all-caps, in either
    renderer: the predicate answers [false] before the ratio of uppercase
    letters to letters is formed, so the ratio is never taken over an
    empty set of letters.  Such a line is not bold as section body
    either, inside or outside the discussion section. *)
Theorem isAllCaps_without_letters :
  forall text : jsstring,
    existsb isLetter text = false ->
    MinutesPdf.isAllCaps text = false /\
    MeetingsPage.isAllCaps text = false /\
    (forall inDiscussion : bool,
        MinutesPdf.isBoldLine text inDiscussion = false).
Proof.
  intros text H.
  assert (Ep : MinutesPdf.isAllCaps text = false).
  { unfold MinutesPdf.isAllCaps. now rewrite (filter_none _ _ H). }
  split; [exact Ep|]. split.
  { unfold MeetingsPage.isAllCaps. now rewrite (filter_none _ _ H). }
  intros d. unfold MinutesPdf.isBoldLine. rewrite Ep.
  destruct d; [|reflexivity].
  assert (E1 : startsWith (js "Councilmember") text = false)
    by exact (startsWith_letter_none text 67 _ H eq_refl).
  assert (E2 : startsWith (js "Council President") text = false)
    by exact (startsWith_letter_none text 67 _ H eq_refl).
  assert (E3 : startsWith (js "Council Vice President") text = false)
    by exact (startsWith_letter_none text 67 _ H eq_refl).
  rewrite E1, E2, E3. cbn [orb].
  destruct text as [|a [|dot [|c text]]]; try reflexivity.
  cbn [testSubItem]. destruct (N.eqb_spec a 97) as [->|_]; [|reflexivity].
  discriminate H.
Qed.

Lemma isAllCaps_without_letters_witness :
  MinutesPdf.isAllCaps (js "12:30 - 4.5%") = false /\
  MeetingsPage.isAllCaps (js "12:30 - 4.5%") = false.
Proof.
  destruct (isAllCaps_without_letters (js "12:30 - 4.5%") eq_refl)
    as [H1 [H2 _]].
  split; [exact H1|exact H2].
Defined.

(** *** Review timestamps *)

Import MeetingsPage.

Lemma tsMatchAt_not_at (c : N) (s : jsstring) :
  (64 =? c) = false -> tsMatchAt (c :: s) = None.
Proof.
  intros H. unfold tsMatchAt. rewrite N.eqb_sym in H.
  destruct s as [|d1 r1]; [reflexivity|]. rewrite H. reflexivity.
Qed.

Lemma tsSearch_found (s : jsstring) (m : TsMatch) :
  tsMatchAt s = Some m -> tsSearch s = Some m.
Proof. intros H. destruct s; cbn [tsSearch]; rewrite H; reflexivity. Qed.

Ltac bad_length H :=
  exfalso; unfold digitsOfLength in H; cbn [List.length Nat.leb] in H;
  rewrite ?andb_false_r in H; discriminate H.

Ltac split_digits H :=
  unfold digitsOfLength in H;
  repeat match type of H with
         | (_ && _) = true => apply andb_prop in H; destruct H as [H ?]
         end;
  cbn [forallb] in H;
  repeat match type of H with
         | (_ && _) = true => apply andb_prop in H; destruct H as [? H]
         end.

Lemma tsMatchAt_minutes (g1 g2 post : jsstring) :
  digitsOfLength 1 2 g1 = true ->
  digitsOfLength 2 2 g2 = true ->
  continuesWithSeconds post = false ->
  tsMatchAt (64 :: g1 ++ 58 :: g2 ++ post) = Some (mkTsMatch g1 g2 None post).
Proof.
  intros H1 H2 Hp.
  destruct g1 as [|d1 [|d2 [|? ?]]]; try (bad_length H1);
  destruct g2 as [|a [|b [|? ?]]]; try (bad_length H2);
  split_digits H1; split_digits H2.
  - cbn [app tsMatchAt tsTail]. 
    repeat match goal with E : isDigit _ = true |- _ => rewrite E; clear E end.
    change (isDigit 58) with false. cbn [andb N.eqb Pos.eqb].
    destruct post as [|c2 [|c [|d r']]]; try reflexivity.
    cbn [continuesWithSeconds] in Hp. rewrite Hp. reflexivity.
  - cbn [app tsMatchAt tsTail].
    repeat match goal with E : isDigit _ = true |- _ => rewrite E; clear E end.
    cbn [andb N.eqb Pos.eqb].
    destruct post as [|c2 [|c [|d r']]]; try reflexivity.
    cbn [continuesWithSeconds] in Hp. rewrite Hp. reflexivity.
Qed.

Lemma tsMatchAt_hours (g1 g2 g3 post : jsstring) :
  digitsOfLength 1 2 g1 = true ->
  digitsOfLength 2 2 g2 = true ->
  digitsOfLength 2 2 g3 = true ->
  tsMatchAt (64 :: g1 ++ 58 :: g2 ++ 58 :: g3 ++ post)
  = Some (mkTsMatch g1 g2 (Some g3) post).
Proof.
  intros H1 H2 H3.
  destruct g1 as [|d1 [|d2 [|? ?]]]; try (bad_length H1);
  destruct g2 as [|a [|b [|? ?]]]; try (bad_length H2);
  destruct g3 as [|e [|f [|? ?]]]; try (bad_length H3);
  split_digits H1; split_digits H2; split_digits H3;
  cbn [app tsMatchAt tsTail];
  repeat match goal with E : isDigit _ = true |- _ => rewrite E; clear E end;
  try change (isDigit 58) with false; cbn [andb N.eqb Pos.eqb]; reflexivity.
Qed.

Lemma twoDigits_digits (n : N) :
  n < 100 -> digitsOfLength 2 2 (twoDigits n) = true.
Proof.
  intros H. unfold digitsOfLength, twoDigits. cbn [forallb List.length Nat.leb].
  assert (Hq : n / 10 < 10) by (apply N.Div0.div_lt_upper_bound; lia).
  assert (Hr : n mod 10 < 10) by (apply N.mod_lt; lia).
  unfold isDigit.
  generalize dependent (n / 10). generalize dependent (n mod 10).
  intros r Hr q Hq.
  assert (E1 : (48 <=? 48 + q) = true) by (apply N.leb_le; lia).
  assert (E2 : (48 + q <=? 57) = true) by (apply N.leb_le; lia).
  assert (E3 : (48 <=? 48 + r) = true) by (apply N.leb_le; lia).
  assert (E4 : (48 + r <=? 57) = true) by (apply N.leb_le; lia).
  rewrite E1, E2, E3, E4. reflexivity.
Qed.

Lemma parseInt_twoDigits (n : N) : n < 100 -> parseInt (twoDigits n) = n.
Proof.
  intros H. unfold parseInt, twoDigits, digitVal. cbn [fold_left].
  pose proof (N.div_mod n 10 ltac:(lia)) as E.
  generalize dependent (n / 10). generalize dependent (n mod 10).
  intros r q E. lia.
Qed.

Lemma tsSearch_leftmost (pre s : jsstring) :
  noMatchBefore pre s = true -> tsSearch (pre ++ s) = tsSearch s.
Proof.
  induction pre as [|c pre IH]; intros H; [reflexivity|].
  cbn [noMatchBefore] in H.
  change ((c :: pre) ++ s) with (c :: (pre ++ s)) in *.
  cbn [tsSearch].
  destruct (tsMatchAt (c :: pre ++ s)); [discriminate H|].
  now apply IH.
Qed.

Lemma parse_minutes_leftmost (pre g1 g2 post : jsstring) :
  noMatchBefore pre (64 :: g1 ++ 58 :: g2 ++ post) = true ->
  digitsOfLength 1 2 g1 = true ->
  digitsOfLength 2 2 g2 = true ->
  continuesWithSeconds post = false ->
  parseReviewTimestamp (pre ++ 64 :: g1 ++ 58 :: g2 ++ post)
  = Some (mkTimestamp (g1 ++ colon ++ g2) (parseInt g1 * 60 + parseInt g2)).
Proof.
  intros Hpre H1 H2 Hp. unfold parseReviewTimestamp.
  rewrite (tsSearch_leftmost _ _ Hpre).
  rewrite (tsSearch_found _ _ (tsMatchAt_minutes _ _ _ H1 H2 Hp)).
  reflexivity.
Qed.

Lemma parse_hours_leftmost (pre g1 g2 g3 post : jsstring) :
  noMatchBefore pre (64 :: g1 ++ 58 :: g2 ++ 58 :: g3 ++ post) = true ->
  digitsOfLength 1 2 g1 = true ->
  digitsOfLength 2 2 g2 = true ->
  digitsOfLength 2 2 g3 = true ->
  parseReviewTimestamp (pre ++ 64 :: g1 ++ 58 :: g2 ++ 58 :: g3 ++ post)
  = Some (mkTimestamp
            (numToString (parseInt g1) ++ colon ++ g2 ++ colon ++ g3)
            (parseInt g1 * 3600 + parseInt g2 * 60 + parseInt g3)).
Proof.
  intros Hpre H1 H2 H3. unfold parseReviewTimestamp.
  rewrite (tsSearch_leftmost _ _ Hpre).
  rewrite (tsSearch_found _ _ (tsMatchAt_hours _ _ _ post H1 H2 H3)).
  reflexivity.
Qed.

(** C6.  Stripping the timestamp from "[REVIEW: check wording @1:23]"
    gives "[REVIEW: check wording]" and parsing that marker gives the
    display "1:23" and 83 seconds.  In "[REVIEW: vote @01:02:03]" the
    pattern matches "@01:02:03" with the groups 01, 02 and 03, and the
    seconds are 1*3600 + 2*60 + 3 = 3723; the display however is
    "1:02:03" and not the matched "01:02:03", because the hours are
    printed from the parsed number.  The M:SS branch prints its first
    group as written: "@01:02" is displayed as "01:02". *)
Theorem review_timestamp_display_drops_zero :
  stripTimestamp (js "[REVIEW: check wording @1:23]")
  = js "[REVIEW: check wording]" /\
  parseReviewTimestamp (js "[REVIEW: check wording @1:23]")
  = Some (mkTimestamp (js "1:23") 83) /\
  tsSearch (js "[REVIEW: vote @01:02:03]")
  = Some (mkTsMatch (js "01") (js "02") (Some (js "03")) (js "]")) /\
  parseReviewTimestamp (js "[REVIEW: vote @01:02:03]")
  = Some (mkTimestamp (js "1:02:03") (1 * 3600 + 2 * 60 + 3)) /\
  js "1:02:03" <> js "01:02:03" /\
  parseReviewTimestamp (js "[REVIEW: vote @01:02]")
  = Some (mkTimestamp (js "01:02") (1 * 60 + 2)).
Proof.
  repeat split; try (vm_compute; reflexivity). discriminate.
Qed.

Lemma tsSearch_app_some (pre s : jsstring) (m : TsMatch) :
  tsMatchAt s = Some m -> exists m', tsSearch (pre ++ s) = Some m'.
Proof.
  intros H. induction pre as [|c pre IH].
  - exists m. now apply tsSearch_found.
  - change ((c :: pre) ++ s) with (c :: (pre ++ s)). cbn [tsSearch].
    destruct (tsMatchAt (c :: pre ++ s)) as [m1|]; [now exists m1|exact IH].
Qed.

Lemma tsMatchAt_any_suffix (g1 g2 post : jsstring) :
  digitsOfLength 1 2 g1 = true ->
  digitsOfLength 2 2 g2 = true ->
  exists m, tsMatchAt (64 :: g1 ++ 58 :: g2 ++ post) = Some m.
Proof.
  intros H1 H2. destruct (continuesWithSeconds post) eqn:E.
  - destruct post as [|c [|a [|b post']]]; try discriminate E.
    cbn [continuesWithSeconds] in E.
    apply andb_prop in E. destruct E as [E Hb].
    apply andb_prop in E. destruct E as [Hc Ha].
    apply N.eqb_eq in Hc. subst c.
    assert (H3 : digitsOfLength 2 2 [a; b] = true).
    { unfold digitsOfLength. cbn [forallb]. rewrite Ha, Hb. reflexivity. }
    eexists. exact (tsMatchAt_hours g1 g2 [a; b] post' H1 H2 H3).
  - eexists. exact (tsMatchAt_minutes g1 g2 post H1 H2 E).
Qed.

(** C10 (as the program has it).  The minute and second fields of a
    time are not range checked: "@1:99" parses to 159 seconds, also
    behind an [@] that starts no time, as in
    "[REVIEW: cc clerk@edison @1:99]".  Wherever "@M:SS" stands in a
    marker, with any two digits SS from 00 to 99, parsing succeeds.  The
    result is taken from the leftmost match of the pattern: when "@M:SS"
    is the leftmost match the seconds are M*60+SS, and when "@H:MM:SS" is
    the leftmost match they are H*3600+MM*60+SS, for every pair of
    two-digit values, 60 and above included. *)
Theorem timestamp_fields_not_range_checked :
  option_map seconds (parseReviewTimestamp (js "@1:99")) = Some 159 /\
  option_map seconds
    (parseReviewTimestamp (js "[REVIEW: cc clerk@edison @1:99]")) = Some 159 /\
  (forall (pre g1 post : jsstring) (ss : N),
      digitsOfLength 1 2 g1 = true ->
      ss < 100 ->
      parseReviewTimestamp
        (pre ++ js "@" ++ g1 ++ js ":" ++ twoDigits ss ++ post) <> None) /\
  (forall (pre g1 post : jsstring) (ss : N),
      noMatchBefore pre (js "@" ++ g1 ++ js ":" ++ twoDigits ss ++ post) = true ->
      digitsOfLength 1 2 g1 = true ->
      ss < 100 ->
      continuesWithSeconds post = false ->
      option_map seconds
        (parseReviewTimestamp
           (pre ++ js "@" ++ g1 ++ js ":" ++ twoDigits ss ++ post))
      = Some (parseInt g1 * 60 + ss)) /\
  (forall (pre g1 post : jsstring) (mm ss : N),
      noMatchBefore pre
        (js "@" ++ g1 ++ js ":" ++ twoDigits mm ++ js ":" ++ twoDigits ss ++ post)
      = true ->
      digitsOfLength 1 2 g1 = true ->
      mm < 100 ->
      ss < 100 ->
      option_map seconds
        (parseReviewTimestamp
           (pre ++ js "@" ++ g1 ++ js ":" ++ twoDigits mm ++ js ":" ++
            twoDigits ss ++ post))
      = Some (parseInt g1 * 3600 + mm * 60 + ss)).
Proof.
  split; [vm_compute; reflexivity|].
  split; [vm_compute; reflexivity|]. split; [|split].
  - intros pre g1 post ss H1 Hs.
    destruct (tsMatchAt_any_suffix g1 (twoDigits ss) post H1
                (twoDigits_digits _ Hs)) as [m Hm].
    destruct (tsSearch_app_some pre _ m Hm) as [m' Hm'].
    change (pre ++ js "@" ++ g1 ++ js ":" ++ twoDigits ss ++ post)
      with (pre ++ 64 :: g1 ++ 58 :: twoDigits ss ++ post).
    unfold parseReviewTimestamp. rewrite Hm'.
    destruct (group3 m'); discriminate.
  - intros pre g1 post ss Hpre H1 Hs Hp.
    change (js "@" ++ g1 ++ js ":" ++ twoDigits ss ++ post)
      with (64 :: g1 ++ 58 :: twoDigits ss ++ post) in *.
    rewrite (parse_minutes_leftmost _ _ _ _ Hpre H1 (twoDigits_digits _ Hs) Hp).
    cbn [option_map seconds]. now rewrite parseInt_twoDigits.
  - intros pre g1 post mm ss Hpre H1 Hm Hs.
    change (js "@" ++ g1 ++ js ":" ++ twoDigits mm ++ js ":" ++
            twoDigits ss ++ post)
      with (64 :: g1 ++ 58 :: twoDigits mm ++ 58 :: twoDigits ss ++ post) in *.
    rewrite (parse_hours_leftmost _ _ _ _ _ Hpre H1 (twoDigits_digits _ Hm)
               (twoDigits_digits _ Hs)).
    cbn [option_map seconds]. now rewrite !parseInt_twoDigits.
Qed.

Lemma timestamp_fields_not_range_checked_witness :
  noMatchBefore (js "[REVIEW: cc clerk@edison ")
    (js "@" ++ js "7" ++ js ":" ++ twoDigits 75 ++ js "]") = true /\
  option_map seconds
    (parseReviewTimestamp
       (js "[REVIEW: cc clerk@edison " ++
        js "@" ++ js "7" ++ js ":" ++ twoDigits 75 ++ js "]"))
  = Some (parseInt (js "7") * 60 + 75).
Proof.
  split; [reflexivity|].
  exact (proj1 (proj2 (proj2 (proj2 timestamp_fields_not_range_checked)))
           (js "[REVIEW: cc clerk@edison ") (js "7") (js "]") 75
           eq_refl eq_refl eq_refl eq_refl).
Defined.

(** The marker "[REVIEW: @0:01 then @1:99]" contains "@1:99", yet its
    parse is that of the earlier "@0:01": one second, not 1*60 + 99. *)
Lemma timestamp_second_match_counterexample :
  js "[REVIEW: @0:01 then @1:99]"
  = js "[REVIEW: @0:01 then " ++
    js "@" ++ js "1" ++ js ":" ++ twoDigits 99 ++ js "]" /\
  option_map seconds (parseReviewTimestamp (js "[REVIEW: @0:01 then @1:99]"))
  = Some 1 /\
  1 <> parseInt (js "1") * 60 + 99.
Proof.
  split; [reflexivity|]. split; [vm_compute; reflexivity|].
  vm_compute. discriminate.
Qed.

(** *** The concrete scenario *)

(** C2.  On the eleven-line document of the specification both renderers
    take "TOWNSHIP OF EDISON" and "MINUTES" as title lines; the body is
    the full-width opening paragraph, the bold header "1." with one
    indented non-bold line, the header "4." after which the discussion
    flag is set, its bold Councilmember line carrying one review marker
    with 725 seconds shown as "[REVIEW: budget concern]", and the
    full-width "On a motion" line after which the section flag is
    cleared; the signature block has the names Jane Doe and John Roe and
    the titles Council President and Township Clerk. *)
Theorem scenario_segmentation :
  forall (heightOfString : jsstring -> Q -> bool -> Q)
         (continuedY : jsstring -> Q -> bool -> Q -> Q),
    let screen := MinutesDocument scenario None in
    let pdf :=
      MinutesPdf.generateMinutesPDF heightOfString continuedY scenario in
    let body := bodyLines (segment (splitChar 10 scenario)) in
    titleBlock screen = [js "TOWNSHIP OF EDISON"; js "MINUTES"] /\
    map MinutesPdf.content (MinutesPdf.titleBoxes pdf)
    = [js "TOWNSHIP OF EDISON"; js "MINUTES"] /\
    bodyElements screen
    = [ FullWidthElement
          (TextContent
             [PlainSpan (js "A Regular Meeting of the Council was held...")]);
        HeaderElement (js "1. ") [PlainSpan (js "CALL TO ORDER")];
        IndentedElement false
          (TextContent
             [PlainSpan (js "The meeting was called to order at 7:00 PM.")]);
        HeaderElement (js "4. ") [PlainSpan (js "DISCUSSION ITEMS")];
        IndentedElement true
          (TextContent
             [PlainSpan (js "Councilmember Smith raised ");
              ReviewSpan (js "[REVIEW: budget concern]")
                (Some (mkTimestamp (js "12:05") 725)) None;
              PlainSpan []]);
        FullWidthElement
          (TextContent
             [PlainSpan (js "On a motion, the meeting was adjourned.")]) ] /\
    screenTriples screen
    = [ (title, true, 0); (title, true, 0); (fullWidth, false, 0);
        (sectionHeader, true, 0); (sectionBody, false, 1);
        (sectionHeader, true, 0); (sectionBody, true, 1);
        (fullWidth, false, 0) ]%nat /\
    pdfTriples pdf = screenTriples screen /\
    snd (bodyLoop None (mkSectionState false false) (firstn 3 body))
    = mkSectionState true false /\
    snd (bodyLoop None (mkSectionState false false) (firstn 4 body))
    = mkSectionState true true /\
    snd (bodyLoop None (mkSectionState false false) body)
    = mkSectionState false true /\
    signatureBlock screen
    = Some (mkSignatureView (js "Jane Doe") (js "John Roe")
              (js "Council President") (js "Township Clerk")) /\
    (let sg := MinutesPdf.signature pdf in
     [MinutesPdf.nameLeft sg; MinutesPdf.nameRight sg]
     = [js "Jane Doe"; js "John Roe"] /\
     [MinutesPdf.titleLeft sg; MinutesPdf.titleRight sg]
     = [js "Council President"; js "Township Clerk"]).
Proof.
  intros h k screen pdf body.
  repeat split; vm_compute; reflexivity.
Qed.

(** *** The discussion flag *)

(** C4 (as the program has it).  In both renderers a line changes the
    discussion flag as follows: a numbered header whose title begins
    with the capitals DISCUSSION sets it; a numbered header that does not
    contain the capitals DISCUSSION clears it; a numbered header that
    contains DISCUSSION elsewhere, and every line that is not a numbered
    header (blank lines included), leaves it as it was. *)
Theorem discussion_flag_update :
  forall (heightOfString : jsstring -> Q -> bool -> Q)
         (continuedY : jsstring -> Q -> bool -> Q -> Q)
         (videoUrl : option jsstring) (st : SectionState)
         (pst : MinutesPdf.SectionState) (c : MinutesPdf.Cursor)
         (line : jsstring),
    inDiscussion (snd (bodyStep videoUrl st line))
    = discussionAfter (inDiscussion st) (trim line) /\
    MinutesPdf.inDiscussion
      (snd (fst (MinutesPdf.bodyStep heightOfString continuedY pst c line)))
    = discussionAfter (MinutesPdf.inDiscussion pst) (trim line).
Proof.
  intros h k v st pst c line.
  unfold bodyStep, MinutesPdf.bodyStep, discussionAfter, MinutesPdf.writeText,
    testDiscussionHeader, testSectionNum.
  destruct (trim line) as [|ch t] eqn:Et; [split; reflexivity|].
  destruct (sectionNumPattern (ch :: t)) as [[numText rest]|].
  - destruct (startsWith (js "DISCUSSION") rest);
    destruct (includes (js "DISCUSSION") (ch :: t));
    destruct (skipn (List.length numText) (ch :: t)); split; reflexivity.
  - destruct (insideSection st && negb (isFullWidthLine (ch :: t)));
    destruct (MinutesPdf.insideSection pst &&
              negb (MinutesPdf.isFullWidthLine (ch :: t))); split; reflexivity.
Qed.

(** The flag is neither case-insensitive nor position-independent: the
    header "4. Discussion Items" clears a set flag, and the header
    "5. OPEN DISCUSSION" leaves a cleared flag cleared, although both
    contain the word. *)
Lemma discussion_flag_counterexample :
  testSectionNum (js "4. Discussion Items") = true /\
  includes (js "DISCUSSION") (toUpperAscii (js "4. Discussion Items")) = true /\
  inDiscussion
    (snd (bodyStep None (mkSectionState true true) (js "4. Discussion Items")))
  = false /\
  MinutesPdf.inDiscussion
    (snd (fst (MinutesPdf.bodyStep fixedPitchHeight fixedPitchContinued
                 (MinutesPdf.mkSectionState true true)
                 (MinutesPdf.mkCursor 116 1) (js "4. Discussion Items"))))
  = false /\
  testSectionNum (js "5. OPEN DISCUSSION") = true /\
  includes (js "DISCUSSION") (js "5. OPEN DISCUSSION") = true /\
  inDiscussion
    (snd (bodyStep None (mkSectionState false false) (js "5. OPEN DISCUSSION")))
  = false /\
  MinutesPdf.inDiscussion
    (snd (fst (MinutesPdf.bodyStep fixedPitchHeight fixedPitchContinued
                 (MinutesPdf.mkSectionState false false)
                 (MinutesPdf.mkCursor 116 1) (js "5. OPEN DISCUSSION"))))
  = false.
Proof. repeat split; vm_compute; reflexivity. Qed.

(** *** Unfolding the paginated document *)

Lemma pdf_title_boxes (h : jsstring -> Q -> bool -> Q)
    (k : jsstring -> Q -> bool -> Q -> Q) (text : jsstring) :
  exists c,
    MinutesPdf.titleBoxes (MinutesPdf.generateMinutesPDF h k text)
    = fst (MinutesPdf.renderTitle h k
             (MinutesPdf.titleLines
                (MinutesPdf.segment (splitChar 10 (replaceTabs text)))) c).
Proof.
  unfold MinutesPdf.generateMinutesPDF. eexists.
  destruct (MinutesPdf.renderTitle h k _ _) as [tb c1] eqn:E.
  destruct (MinutesPdf.bodyLoop h k _ _ _) as [[items st] c3].
  destruct (MinutesPdf.parseSignature _). cbn [MinutesPdf.titleBoxes].
  rewrite E. reflexivity.
Qed.

Lemma pdf_body_items (h : jsstring -> Q -> bool -> Q)
    (k : jsstring -> Q -> bool -> Q -> Q) (text : jsstring) :
  exists c,
    MinutesPdf.bodyItems (MinutesPdf.generateMinutesPDF h k text)
    = fst (fst (MinutesPdf.bodyLoop h k (MinutesPdf.mkSectionState false false) c
                  (MinutesPdf.bodyLines
                     (MinutesPdf.segment (splitChar 10 (replaceTabs text)))))).
Proof.
  unfold MinutesPdf.generateMinutesPDF.
  destruct (MinutesPdf.renderTitle h k _ _) as [tb c1].
  eexists.
  destruct (MinutesPdf.bodyLoop h k _ _ _) as [[items st] c3] eqn:E.
  destruct (MinutesPdf.parseSignature _). cbn [MinutesPdf.bodyItems].
  rewrite E. reflexivity.
Qed.

Lemma pdf_bodyLoop_cons (h : jsstring -> Q -> bool -> Q)
    (k : jsstring -> Q -> bool -> Q -> Q)
  (st : MinutesPdf.SectionState) (c : MinutesPdf.Cursor)
  (line : jsstring) (rest : list jsstring) :
  fst (fst (MinutesPdf.bodyLoop h k st c (line :: rest)))
  = fst (fst (MinutesPdf.bodyStep h k st c line))
    :: fst (fst (MinutesPdf.bodyLoop h k
                   (snd (fst (MinutesPdf.bodyStep h k st c line)))
                   (snd (MinutesPdf.bodyStep h k st c line)) rest)).
Proof.
  cbn [MinutesPdf.bodyLoop].
  destruct (MinutesPdf.bodyStep h k st c line) as [[item st1] c1].
  cbn [fst snd].
  destruct (MinutesPdf.bodyLoop h k st1 c1 rest) as [[items st2] c2].
  reflexivity.
Qed.

Lemma screen_bodyLoop_cons (v : option jsstring) (st : SectionState)
  (line : jsstring) (rest : list jsstring) :
  fst (bodyLoop v st (line :: rest))
  = fst (bodyStep v st line) :: fst (bodyLoop v (snd (bodyStep v st line)) rest).
Proof.
  cbn [bodyLoop].
  destruct (bodyStep v st line) as [e st1]. cbn [fst snd].
  destruct (bodyLoop v st1 rest) as [es st2]. reflexivity.
Qed.

(** *** Boldness of full-width lines *)











(** *** Tabs replaced by four spaces

    The pagination renderer replaces every tab by four spaces before it
    splits the text; the screen renderer does not.  The lemmas below show
    that none of the tests made on a line can tell the difference. *)

Lemma replaceTabs_tab (s : jsstring) :
  replaceTabs (9 :: s) = 32 :: 32 :: 32 :: 32 :: replaceTabs s.
Proof. reflexivity. Qed.

Lemma replaceTabs_other (c : N) (s : jsstring) :
  (c =? 9) = false -> replaceTabs (c :: s) = c :: replaceTabs s.
Proof. intros H. unfold replaceTabs. cbn [flat_map]. rewrite H. reflexivity. Qed.

Lemma replaceTabs_app (a b : jsstring) :
  replaceTabs (a ++ b) = replaceTabs a ++ replaceTabs b.
Proof. apply flat_map_app. Qed.

Ltac tab_cases c :=
  let Hne := fresh "Hne" in
  destruct (N.eqb_spec c 9) as [->|Hne];
  [ rewrite ?replaceTabs_tab
  | apply N.eqb_neq in Hne; rewrite ?(replaceTabs_other c) by exact Hne ].

Lemma replaceTabs_nil (s : jsstring) : replaceTabs s = [] -> s = [].
Proof. destruct s as [|c s]; [reflexivity|]. tab_cases c; discriminate. Qed.

Lemma replaceTabs_rev (s : jsstring) : replaceTabs (rev s) = rev (replaceTabs s).
Proof.
  induction s as [|c s IH]; [reflexivity|].
  cbn [rev]. rewrite replaceTabs_app, IH.
  tab_cases c; cbn [rev]; rewrite <- ?app_assoc; reflexivity.
Qed.

Lemma takeWhile_replaceTabs (p : N -> bool) (s : jsstring) :
  p 9 = p 32 ->
  takeWhile p (replaceTabs s) = replaceTabs (takeWhile p s).
Proof.
  intros Hp. induction s as [|c s IH]; [reflexivity|].
  tab_cases c.
  - cbn [takeWhile]. rewrite Hp. destruct (p 32); [|reflexivity].
    rewrite IH. reflexivity.
  - cbn [takeWhile]. destruct (p c); [|reflexivity].
    rewrite (replaceTabs_other c) by exact Hne. rewrite IH. reflexivity.
Qed.

Lemma dropWhile_replaceTabs (p : N -> bool) (s : jsstring) :
  p 9 = p 32 ->
  dropWhile p (replaceTabs s) = replaceTabs (dropWhile p s).
Proof.
  intros Hp. induction s as [|c s IH]; [reflexivity|].
  tab_cases c.
  - cbn [dropWhile]. rewrite Hp. destruct (p 32); [exact IH|reflexivity].
  - cbn [dropWhile]. destruct (p c); [exact IH|].
    rewrite (replaceTabs_other c) by exact Hne. reflexivity.
Qed.

Lemma trim_replaceTabs (s : jsstring) : trim (replaceTabs s) = replaceTabs (trim s).
Proof.
  unfold trim, trimEnd, trimStart.
  rewrite dropWhile_replaceTabs by reflexivity.
  rewrite <- replaceTabs_rev.
  rewrite dropWhile_replaceTabs by reflexivity.
  now rewrite replaceTabs_rev.
Qed.

Lemma startsWith_replaceTabs (lit s : jsstring) :
  tabSafe lit = true -> startsWith lit (replaceTabs s) = startsWith lit s.
Proof.
  revert s. induction lit as [|a lit IH]; intros s H; [reflexivity|].
  cbn [tabSafe] in H.
  apply andb_prop in H. destruct H as [H Hsafe].
  apply andb_prop in H. destruct H as [Ha Hsp].
  apply negb_true_iff in Ha.
  destruct s as [|c s]; [reflexivity|].
  tab_cases c.
  - cbn [startsWith]. rewrite Ha.
    destruct (N.eqb_spec a 32) as [->|Ha32]; [|reflexivity].
    cbn [N.eqb Pos.eqb] in Hsp.
    destruct lit as [|b lit]; [discriminate Hsp|].
    apply andb_prop in Hsp. destruct Hsp as [Hb _].
    apply negb_true_iff in Hb. cbn [startsWith]. rewrite Hb. reflexivity.
  - cbn [startsWith]. now rewrite IH.
Qed.

(** A literal that, in addition, does not begin with a space. *)
Lemma includes_replaceTabs (a : N) (lit s : jsstring) :
  tabSafe (a :: lit) = true -> (a =? 32) = false ->
  includes (a :: lit) (replaceTabs s) = includes (a :: lit) s.
Proof.
  intros Hsafe Ha32.
  assert (Ha9 : (a =? 9) = false).
  { cbn [tabSafe] in Hsafe. apply andb_prop in Hsafe. destruct Hsafe as [H _].
    apply andb_prop in H. destruct H as [H _]. now apply negb_true_iff in H. }
  induction s as [|c s IH]; [reflexivity|].
  tab_cases c.
  - cbn [includes startsWith]. rewrite Ha32, Ha9. cbn [andb orb].
    rewrite <- IH. destruct (replaceTabs s); reflexivity.
  - cbn [includes].
    rewrite <- (replaceTabs_other c s) by exact Hne.
    rewrite (startsWith_replaceTabs _ _ Hsafe).
    now rewrite IH.
Qed.

Lemma splitChar_replaceTabs (s : jsstring) :
  splitChar 10 (replaceTabs s) = map replaceTabs (splitChar 10 s).
Proof.
  induction s as [|c s IH]; [reflexivity|].
  tab_cases c.
  - cbn [splitChar N.eqb Pos.eqb]. rewrite IH.
    destruct (splitChar 10 s); reflexivity.
  - cbn [splitChar]. destruct (c =? 10); rewrite IH; [reflexivity|].
    destruct (splitChar 10 s) as [|l ls]; cbn [map].
    + rewrite (replaceTabs_other c) by exact Hne. reflexivity.
    + rewrite (replaceTabs_other c) by exact Hne. reflexivity.
Qed.

Lemma filter_replaceTabs (p : N -> bool) (s : jsstring) :
  p 9 = false -> p 32 = false -> filter p (replaceTabs s) = filter p s.
Proof.
  intros H9 H32. induction s as [|c s IH]; [reflexivity|].
  tab_cases c; cbn [filter]; rewrite ?H9, ?H32, IH; reflexivity.
Qed.

Lemma takeWhile_digits_no_tab (t : jsstring) :
  replaceTabs (takeWhile isDigit t) = takeWhile isDigit t.
Proof.
  induction t as [|c t IH]; [reflexivity|].
  cbn [takeWhile]. destruct (isDigit c) eqn:Ed; [|reflexivity].
  destruct (N.eqb_spec c 9) as [->|Hne]; [discriminate Ed|].
  apply N.eqb_neq in Hne. rewrite (replaceTabs_other c) by exact Hne.
  now rewrite IH.
Qed.

Lemma sectionNumPattern_replaceTabs (t : jsstring) :
  sectionNumPattern (replaceTabs t)
  = match sectionNumPattern t with
    | Some (numText, rest) => Some (replaceTabs numText, replaceTabs rest)
    | None => None
    end.
Proof.
  unfold sectionNumPattern.
  rewrite (takeWhile_replaceTabs isDigit) by reflexivity.
  rewrite (dropWhile_replaceTabs isDigit) by reflexivity.
  rewrite takeWhile_digits_no_tab.
  destruct (takeWhile isDigit t) as [|d ds] eqn:Ed.
  { destruct (replaceTabs (dropWhile isDigit t)); reflexivity. }
  destruct (dropWhile isDigit t) as [|dot r]; [reflexivity|].
  tab_cases dot; [reflexivity|].
  destruct (dot =? 46); [|reflexivity].
  rewrite (takeWhile_replaceTabs isSpace) by reflexivity.
  rewrite (dropWhile_replaceTabs isSpace) by reflexivity.
  destruct (takeWhile isSpace r) as [|w ws]; [reflexivity|].
  assert (E : replaceTabs ((d :: ds) ++ [46] ++ w :: ws)
              = (d :: ds) ++ [46] ++ replaceTabs (w :: ws)).
  { rewrite !replaceTabs_app. rewrite <- Ed at 1.
    rewrite takeWhile_digits_no_tab, Ed. reflexivity. }
  rewrite E.
  tab_cases w; reflexivity.
Qed.

Lemma testSectionNum_replaceTabs (t : jsstring) :
  testSectionNum (replaceTabs t) = testSectionNum t.
Proof.
  unfold testSectionNum. rewrite sectionNumPattern_replaceTabs.
  destruct (sectionNumPattern t) as [[n r]|]; reflexivity.
Qed.

Lemma testDiscussionHeader_replaceTabs (t : jsstring) :
  testDiscussionHeader (replaceTabs t) = testDiscussionHeader t.
Proof.
  unfold testDiscussionHeader. rewrite sectionNumPattern_replaceTabs.
  destruct (sectionNumPattern t) as [[n r]|]; [|reflexivity].
  now apply startsWith_replaceTabs.
Qed.

Lemma testSubItem_replaceTabs (t : jsstring) :
  testSubItem (replaceTabs t) = testSubItem t.
Proof.
  destruct t as [|a t]; [reflexivity|].
  tab_cases a; [destruct t as [|? [|? ?]]; reflexivity|].
  destruct t as [|dot t]; [reflexivity|].
  tab_cases dot.
  { cbn [testSubItem N.eqb Pos.eqb]. rewrite andb_false_r.
    destruct t; cbn [andb]; now rewrite ?andb_false_r. }
  destruct t as [|c t]; [reflexivity|].
  tab_cases c; reflexivity.
Qed.

Lemma isAllCaps_replaceTabs (t : jsstring) :
  MinutesPdf.isAllCaps (replaceTabs t) = isAllCaps t.
Proof.
  unfold MinutesPdf.isAllCaps, isAllCaps.
  now rewrite (filter_replaceTabs isLetter) by reflexivity.
Qed.

Lemma isFullWidthLine_replaceTabs (t : jsstring) :
  MinutesPdf.isFullWidthLine (replaceTabs t) = isFullWidthLine t.
Proof.
  unfold MinutesPdf.isFullWidthLine, isFullWidthLine.
  now rewrite !startsWith_replaceTabs by reflexivity.
Qed.

Lemma isBoldLine_replaceTabs (t : jsstring) (d : bool) :
  MinutesPdf.isBoldLine (replaceTabs t) d
  = isAllCaps t ||
    (d && (startsWith (js "Councilmember") t ||
           startsWith (js "Council President") t ||
           startsWith (js "Council Vice President") t ||
           testSubItem t)).
Proof.
  unfold MinutesPdf.isBoldLine.
  rewrite isAllCaps_replaceTabs, testSubItem_replaceTabs.
  rewrite !startsWith_replaceTabs by reflexivity.
  destruct (isAllCaps t), d,
    (startsWith (js "Councilmember") t),
    (startsWith (js "Council President") t),
    (startsWith (js "Council Vice President") t),
    (testSubItem t); reflexivity.
Qed.

Lemma isTitleBoundary_replaceTabs (l : jsstring) :
  MinutesPdf.isTitleBoundary (replaceTabs l) = isTitleBoundary l.
Proof.
  unfold MinutesPdf.isTitleBoundary, isTitleBoundary.
  rewrite trim_replaceTabs.
  now rewrite !startsWith_replaceTabs by reflexivity.
Qed.

Lemma underscores_replaceTabs (l : jsstring) :
  includes (js "___") (replaceTabs l) = includes (js "___") l.
Proof. now apply includes_replaceTabs. Qed.

Lemma discussion_replaceTabs (l : jsstring) :
  includes (js "DISCUSSION") (replaceTabs l) = includes (js "DISCUSSION") l.
Proof. now apply includes_replaceTabs. Qed.

(** *** The two boundary scans *)

Lemma findFirst_map {A B : Type} (f : A -> B) (p : B -> bool) (q : A -> bool)
  (l : list A) :
  (forall x, p (f x) = q x) -> findFirst p (map f l) = findFirst q l.
Proof.
  intros H. induction l as [|x l IH]; [reflexivity|].
  cbn [map findFirst]. rewrite H, IH. reflexivity.
Qed.

Lemma findLast_map {A B : Type} (f : A -> B) (p : B -> bool) (q : A -> bool)
  (l : list A) :
  (forall x, p (f x) = q x) -> findLast p (map f l) = findLast q l.
Proof.
  intros H. induction l as [|x l IH]; [reflexivity|].
  cbn [map findLast]. rewrite H, IH. reflexivity.
Qed.

Lemma filter_map_swap {A B : Type} (f : A -> B) (p : B -> bool) (q : A -> bool)
  (l : list A) :
  (forall x, p (f x) = q x) -> filter p (map f l) = map f (filter q l).
Proof.
  intros H. induction l as [|x l IH]; [reflexivity|].
  cbn [map filter]. rewrite H, IH. destruct (q x); reflexivity.
Qed.

Lemma findTitleEnd_replaceTabs (lines : list jsstring) :
  MinutesPdf.findTitleEnd (map replaceTabs lines) = findTitleEnd lines.
Proof.
  unfold MinutesPdf.findTitleEnd, findTitleEnd.
  now rewrite (findFirst_map _ _ isTitleBoundary _ isTitleBoundary_replaceTabs).
Qed.

Lemma findSigStart_replaceTabs (lines : list jsstring) :
  MinutesPdf.findSigStart (map replaceTabs lines) = findSigStart lines.
Proof.
  unfold MinutesPdf.findSigStart, findSigStart.
  rewrite (findLast_map _ _ (includes (js "___")) _ underscores_replaceTabs).
  now rewrite length_map.
Qed.

Lemma slice_map {A B : Type} (f : A -> B) (a b : nat) (l : list A) :
  slice a b (map f l) = map f (slice a b l).
Proof. unfold slice. now rewrite skipn_map, firstn_map. Qed.

Lemma segment_replaceTabs (lines : list jsstring) :
  MinutesPdf.titleLines (MinutesPdf.segment (map replaceTabs lines))
  = map replaceTabs (titleLines (segment lines)) /\
  MinutesPdf.bodyLines (MinutesPdf.segment (map replaceTabs lines))
  = map replaceTabs (bodyLines (segment lines)) /\
  MinutesPdf.sigLines (MinutesPdf.segment (map replaceTabs lines))
  = map replaceTabs (sigLines (segment lines)).
Proof.
  unfold MinutesPdf.segment, segment.
  cbn [MinutesPdf.titleLines MinutesPdf.bodyLines MinutesPdf.sigLines
       titleLines bodyLines sigLines].
  rewrite findTitleEnd_replaceTabs, findSigStart_replaceTabs.
  rewrite !slice_map. unfold sliceFrom. rewrite skipn_map.
  repeat split.
  apply filter_map_swap. intros l. rewrite trim_replaceTabs.
  destruct (trim l) as [|c t]; [reflexivity|].
  tab_cases c; reflexivity.
Qed.

(** *** Agreement of the two traversals *)

Lemma step_agreement (h : jsstring -> Q -> bool -> Q)
    (k : jsstring -> Q -> bool -> Q -> Q) (v : option jsstring)
  (st : SectionState) (pst : MinutesPdf.SectionState) (c : MinutesPdf.Cursor)
  (line : jsstring) :
  MinutesPdf.insideSection pst = insideSection st ->
  MinutesPdf.inDiscussion pst = inDiscussion st ->
  itemTriple (fst (fst (MinutesPdf.bodyStep h k pst c (replaceTabs line))))
  = elementTriple (fst (bodyStep v st line)) /\
  MinutesPdf.insideSection
    (snd (fst (MinutesPdf.bodyStep h k pst c (replaceTabs line))))
  = insideSection (snd (bodyStep v st line)) /\
  MinutesPdf.inDiscussion
    (snd (fst (MinutesPdf.bodyStep h k pst c (replaceTabs line))))
  = inDiscussion (snd (bodyStep v st line)).
Proof.
  intros Hin Hdisc.
  unfold MinutesPdf.bodyStep, bodyStep, MinutesPdf.writeText.
  rewrite trim_replaceTabs.
  destruct (trim line) as [|ch t] eqn:Et; [repeat split; assumption|].
  set (T := ch :: t).
  destruct (replaceTabs T) as [|ch' t'] eqn:ET.
  { apply replaceTabs_nil in ET. discriminate ET. }
  rewrite <- ET.
  rewrite testDiscussionHeader_replaceTabs, testSectionNum_replaceTabs,
    discussion_replaceTabs,
    sectionNumPattern_replaceTabs, isFullWidthLine_replaceTabs,
    isBoldLine_replaceTabs.
  rewrite !startsWith_replaceTabs by reflexivity.
  rewrite Hin, Hdisc.
  destruct (sectionNumPattern T) as [[numText rest]|].
  - destruct (skipn (List.length (replaceTabs numText)) (replaceTabs T));
      repeat split; reflexivity.
  - destruct (insideSection st && negb (isFullWidthLine T)).
    + repeat split; reflexivity.
    + cbn [fst snd itemTriple elementTriple MinutesPdf.left MinutesPdf.bold
           MinutesPdf.insideSection MinutesPdf.inDiscussion
           insideSection inDiscussion].
      change (Qeq_bool MinutesPdf.PAGE_marginLeft MinutesPdf.PAGE_marginLeft)
        with true.
      destruct (startsWith (js "On a motion") T),
        (startsWith (js "Hearing no further") T); repeat split; reflexivity.
Qed.

Lemma loop_agreement (h : jsstring -> Q -> bool -> Q)
    (k : jsstring -> Q -> bool -> Q -> Q) (v : option jsstring)
  (lines : list jsstring) :
  forall (st : SectionState) (pst : MinutesPdf.SectionState)
         (c : MinutesPdf.Cursor),
    MinutesPdf.insideSection pst = insideSection st ->
    MinutesPdf.inDiscussion pst = inDiscussion st ->
    map itemTriple
      (fst (fst (MinutesPdf.bodyLoop h k pst c (map replaceTabs lines))))
    = map elementTriple (fst (bodyLoop v st lines)).
Proof.
  induction lines as [|line rest IH]; intros st pst c Hin Hdisc; [reflexivity|].
  cbn [map]. rewrite pdf_bodyLoop_cons, screen_bodyLoop_cons. cbn [map].
  destruct (step_agreement h k v st pst c line Hin Hdisc) as [E1 [E2 E3]].
  rewrite E1. f_equal. now apply IH.
Qed.

Lemma pdf_renderTitle_cons (h : jsstring -> Q -> bool -> Q)
    (k : jsstring -> Q -> bool -> Q -> Q)
  (line : jsstring) (rest : list jsstring) (c : MinutesPdf.Cursor) :
  MinutesPdf.renderTitle h k (line :: rest) c
  = let w := MinutesPdf.writeText h k (trim line) MinutesPdf.PAGE_marginLeft
               MinutesPdf.PAGE_contentWidth true true c in
    (fst w :: fst (MinutesPdf.renderTitle h k rest (snd w)),
     snd (MinutesPdf.renderTitle h k rest (snd w))).
Proof.
  cbn [MinutesPdf.renderTitle]. cbv zeta.
  destruct (MinutesPdf.writeText h k _ _ _ _ _ c) as [b c1].
  cbn [fst snd]. now destruct (MinutesPdf.renderTitle h k rest c1).
Qed.



(** *** A signature line above the title boundary *)









(** *** Missing signature fields *)

Lemma findLast_none {A : Type} (p : A -> bool) (l : list A) :
  existsb p l = false -> findLast p l = None.
Proof.
  induction l as [|x l IH]; intros H; [reflexivity|].
  cbn [existsb] in H. apply orb_false_elim in H. destruct H as [Hx Hl].
  cbn [findLast]. now rewrite (IH Hl), Hx.
Qed.

Lemma existsb_map_ext {A B : Type} (f : A -> B) (p : B -> bool) (q : A -> bool)
  (l : list A) :
  (forall x, p (f x) = q x) -> existsb p (map f l) = existsb q l.
Proof.
  intros H. induction l as [|x l IH]; [reflexivity|].
  cbn [map existsb]. now rewrite H, IH.
Qed.

Lemma orElse_missing (arr : list jsstring) (i : nat) (dflt : jsstring) :
  (List.length arr <= i)%nat -> orElse arr i dflt = dflt.
Proof.
  intros H. unfold orElse. now rewrite (proj2 (nth_error_None arr i) H).
Qed.

Lemma pdf_orElse_missing (arr : list jsstring) (i : nat) (dflt : jsstring) :
  (List.length arr <= i)%nat -> MinutesPdf.orElse arr i dflt = dflt.
Proof.
  intros H. unfold MinutesPdf.orElse. now rewrite (proj2 (nth_error_None arr i) H).
Qed.

Lemma pdf_signature_fields (h : jsstring -> Q -> bool -> Q)
    (k : jsstring -> Q -> bool -> Q -> Q) (text : jsstring) :
  let parsed :=
    MinutesPdf.parseSignature
      (MinutesPdf.sigLines
         (MinutesPdf.segment (splitChar 10 (replaceTabs text)))) in
  let sg := MinutesPdf.signature (MinutesPdf.generateMinutesPDF h k text) in
  MinutesPdf.nameLeft sg = MinutesPdf.orElse (fst parsed) 0 (js "Sam Joshi") /\
  MinutesPdf.nameRight sg
  = MinutesPdf.orElse (fst parsed) 1 (js "Patricia Benedetto, RMC") /\
  MinutesPdf.titleLeft sg
  = MinutesPdf.orElse (snd parsed) 0 (js "Council President") /\
  MinutesPdf.titleRight sg
  = MinutesPdf.orElse (snd parsed) 1 (js "Municipal Clerk").
Proof.
  cbv zeta. unfold MinutesPdf.generateMinutesPDF.
  destruct (MinutesPdf.renderTitle h k _ _) as [tb c1].
  destruct (MinutesPdf.bodyLoop h k _ _ _) as [[items st] c3].
  destruct (MinutesPdf.parseSignature _) as [names titles].
  repeat split.
Qed.

Lemma screen_signature_block (text : jsstring) (v : option jsstring) :
  let parsed := parseSignature (sigLines (segment (splitChar 10 text))) in
  signatureBlock (MinutesDocument text v)
  = if (0 <? List.length (fst parsed))%nat
    then Some (mkSignatureView
                 (orElse (fst parsed) 0 []) (orElse (fst parsed) 1 [])
                 (orElse (snd parsed) 0 []) (orElse (snd parsed) 1 []))
    else None.
Proof.
  cbv zeta. unfold MinutesDocument.
  destruct (parseSignature _) as [names titles]. reflexivity.
Qed.

(** C3 (as the program has it).  Whatever the text, both renderers
    produce a result.  A signature field for which nothing was parsed is
    the empty string in the screen renderer, which leaves the whole block
    out when no name was parsed; the pagination renderer puts the fixed
    texts "Sam Joshi", "Patricia Benedetto, RMC", "Council President" and
    "Municipal Clerk" in the place of a missing left name, right name,
    left title and right title.  In particular a text without any line of
    three underscores gets no signature block on screen and the four
    fixed texts in the paginated document. *)
Theorem missing_signature_fields :
  forall (heightOfString : jsstring -> Q -> bool -> Q)
         (continuedY : jsstring -> Q -> bool -> Q -> Q)
         (text : jsstring)
         (videoUrl : option jsstring),
    let screen := MinutesDocument text videoUrl in
    let names := fst (parseSignature (sigLines (segment (splitChar 10 text)))) in
    let titles := snd (parseSignature (sigLines (segment (splitChar 10 text)))) in
    let pdf := MinutesPdf.signature
                 (MinutesPdf.generateMinutesPDF heightOfString continuedY
                       text) in
    let pparsed :=
      MinutesPdf.parseSignature
        (MinutesPdf.sigLines
           (MinutesPdf.segment (splitChar 10 (replaceTabs text)))) in
    (names = [] -> signatureBlock screen = None) /\
    (forall sv, signatureBlock screen = Some sv ->
       ((List.length names <= 1)%nat -> nameRight sv = []) /\
       (titles = [] -> titleLeft sv = []) /\
       ((List.length titles <= 1)%nat -> titleRight sv = [])) /\
    (fst pparsed = [] -> MinutesPdf.nameLeft pdf = js "Sam Joshi") /\
    ((List.length (fst pparsed) <= 1)%nat ->
     MinutesPdf.nameRight pdf = js "Patricia Benedetto, RMC") /\
    (snd pparsed = [] -> MinutesPdf.titleLeft pdf = js "Council President") /\
    ((List.length (snd pparsed) <= 1)%nat ->
     MinutesPdf.titleRight pdf = js "Municipal Clerk") /\
    (existsb (includes (js "___")) (splitChar 10 text) = false ->
     signatureBlock screen = None /\
     MinutesPdf.nameLeft pdf = js "Sam Joshi" /\
     MinutesPdf.nameRight pdf = js "Patricia Benedetto, RMC" /\
     MinutesPdf.titleLeft pdf = js "Council President" /\
     MinutesPdf.titleRight pdf = js "Municipal Clerk").
Proof.
  intros h k text v screen names titles pdf pparsed.
  pose proof (screen_signature_block text v) as Hs. cbv zeta in Hs.
  fold screen names titles in Hs.
  destruct (pdf_signature_fields h k text) as [P1 [P2 [P3 P4]]].
  fold pdf pparsed in P1, P2, P3, P4.
  assert (S1 : names = [] -> signatureBlock screen = None).
  { intros E. rewrite Hs, E. reflexivity. }
  assert (Q1 : fst pparsed = [] -> MinutesPdf.nameLeft pdf = js "Sam Joshi").
  { intros E. rewrite P1, E. reflexivity. }
  assert (Q2 : (List.length (fst pparsed) <= 1)%nat ->
               MinutesPdf.nameRight pdf = js "Patricia Benedetto, RMC").
  { intros E. rewrite P2. now apply pdf_orElse_missing. }
  assert (Q3 : snd pparsed = [] ->
               MinutesPdf.titleLeft pdf = js "Council President").
  { intros E. rewrite P3, E. reflexivity. }
  assert (Q4 : (List.length (snd pparsed) <= 1)%nat ->
               MinutesPdf.titleRight pdf = js "Municipal Clerk").
  { intros E. rewrite P4. now apply pdf_orElse_missing. }
  split; [exact S1|]. split.
  { intros sv Hsv. rewrite Hs in Hsv.
    destruct (0 <? List.length names)%nat; [|discriminate Hsv].
    injection Hsv as <-. cbn [nameRight titleLeft titleRight].
    repeat split; intros E.
    - now apply orElse_missing.
    - rewrite E. reflexivity.
    - now apply orElse_missing. }
  split; [exact Q1|]. split; [exact Q2|]. split; [exact Q3|].
  split; [exact Q4|].
  intros Hno.
  assert (Esig : sigLines (segment (splitChar 10 text)) = []).
  { unfold segment, findSigStart. cbn [sigLines].
    rewrite (findLast_none _ _ Hno). unfold sliceFrom. apply skipn_all. }
  assert (Epsig : MinutesPdf.sigLines
                    (MinutesPdf.segment (splitChar 10 (replaceTabs text))) = []).
  { rewrite splitChar_replaceTabs.
    destruct (segment_replaceTabs (splitChar 10 text)) as [_ [_ Ps]].
    rewrite Ps, Esig. reflexivity. }
  assert (En : names = []) by (unfold names; now rewrite Esig).
  assert (Ep : pparsed = ([], [])) by (unfold pparsed; now rewrite Epsig).
  split; [exact (S1 En)|].
  split; [apply Q1; now rewrite Ep|].
  split; [apply Q2; rewrite Ep; cbn; lia|].
  split; [apply Q3; now rewrite Ep|].
  apply Q4; rewrite Ep; cbn; lia.
Qed.

Lemma missing_signature_fields_witness :
  let text := js "1. CALL TO ORDER" ++ [10] ++ js "The meeting was opened." in
  signatureBlock (MinutesDocument text None) = None /\
  MinutesPdf.nameLeft
    (MinutesPdf.signature (MinutesPdf.generateMinutesPDF fixedPitchHeight fixedPitchContinued
          text))
  = js "Sam Joshi".
Proof.
  intros text.
  assert (H : existsb (includes (js "___")) (splitChar 10 text) = false)
    by reflexivity.
  pose proof (missing_signature_fields fixedPitchHeight fixedPitchContinued
        text None) as T.
  cbv zeta in T.
  destruct T as [_ [_ [_ [_ [_ [_ T]]]]]].
  destruct (T H) as [T1 [T2 _]]. split; [exact T1|exact T2].
Defined.

(** The paginated document shows substitute text where the signature is
    missing: all four fixed texts when there is no underscore line, and
    the fixed right name and titles when only "Jane Doe" follows the
    rule. *)
Lemma missing_signature_fields_counterexample :
  (let sg := MinutesPdf.signature
               (MinutesPdf.generateMinutesPDF fixedPitchHeight fixedPitchContinued
                  (js "The meeting was opened.")) in
   MinutesPdf.nameLeft sg = js "Sam Joshi" /\
   MinutesPdf.nameRight sg = js "Patricia Benedetto, RMC" /\
   MinutesPdf.titleLeft sg = js "Council President" /\
   MinutesPdf.titleRight sg = js "Municipal Clerk") /\
  (let sg := MinutesPdf.signature
               (MinutesPdf.generateMinutesPDF fixedPitchHeight fixedPitchContinued
                  (js "_____" ++ [10] ++ js "Jane Doe")) in
   MinutesPdf.nameLeft sg = js "Jane Doe" /\
   MinutesPdf.nameRight sg <> [] /\
   MinutesPdf.titleLeft sg <> [] /\
   MinutesPdf.titleRight sg <> []).
Proof.
  split; cbv zeta; repeat split; try (vm_compute; reflexivity);
    vm_compute; discriminate.
Qed.

(** *** Page breaks *)

Lemma ensureSpace_room (needed : Q) (c : MinutesPdf.Cursor) :
  (needed <= MinutesPdf.PAGE_bottomLimit - MinutesPdf.PAGE_marginTop)%Q ->
  (MinutesPdf.y (MinutesPdf.ensureSpace needed c) + needed
   <= MinutesPdf.PAGE_bottomLimit)%Q.
Proof.
  intros H. unfold MinutesPdf.ensureSpace.
  destruct (Qle_bool (MinutesPdf.y c + needed) MinutesPdf.PAGE_bottomLimit) eqn:E.
  - now apply Qle_bool_iff.
  - unfold MinutesPdf.startNewPage. cbn [MinutesPdf.y]. lra.
Qed.

Lemma writeText_fits (h : jsstring -> Q -> bool -> Q)
    (k : jsstring -> Q -> bool -> Q -> Q) (text : jsstring)
  (x w : Q) (ac bl : bool) (c : MinutesPdf.Cursor) :
  let b := fst (MinutesPdf.writeText h k text x w ac bl c) in
  (MinutesPdf.height b
   <= MinutesPdf.PAGE_bottomLimit - MinutesPdf.PAGE_marginTop)%Q ->
  fitsPage b.
Proof.
  cbv zeta. unfold MinutesPdf.writeText, fitsPage.
  cbn [fst MinutesPdf.height MinutesPdf.top].
  apply ensureSpace_room.
Qed.



Lemma bodyStep_fit (h : jsstring -> Q -> bool -> Q)
    (k : jsstring -> Q -> bool -> Q -> Q)
  (st : MinutesPdf.SectionState) (c : MinutesPdf.Cursor) (line : jsstring) :
  match fst (fst (MinutesPdf.bodyStep h k st c line)) with
  | MinutesPdf.Text b =>
      (MinutesPdf.height b
       <= MinutesPdf.PAGE_bottomLimit - MinutesPdf.PAGE_marginTop)%Q ->
      fitsPage b
  | MinutesPdf.Header _ (Some b) =>
      (MinutesPdf.height b
       <= MinutesPdf.PAGE_maxY - MinutesPdf.PAGE_bottomLimit
          + MinutesPdf.LINE_HEIGHT * 2)%Q ->
      staysOnPage b
  | _ => True
  end.
Proof.
  unfold MinutesPdf.bodyStep.
  destruct (trim line) as [|ch t]; [exact I|].
  destruct (sectionNumPattern (ch :: t)) as [[numText rest]|].
  - destruct (skipn (List.length numText) (ch :: t)) as [|r rs]; [exact I|].
    cbn [fst]. unfold staysOnPage. cbn [MinutesPdf.top MinutesPdf.height].
    intros Hh.
    pose proof (ensureSpace_room (MinutesPdf.LINE_HEIGHT * 2) c) as Hr.
    assert (Hroom : (MinutesPdf.LINE_HEIGHT * 2
                     <= MinutesPdf.PAGE_bottomLimit - MinutesPdf.PAGE_marginTop)%Q)
      by (vm_compute; discriminate).
    specialize (Hr Hroom). lra.
  - destruct (MinutesPdf.insideSection st &&
              negb (MinutesPdf.isFullWidthLine (ch :: t))).
    + pose proof (writeText_fits h k (ch :: t)
                    (MinutesPdf.PAGE_marginLeft + MinutesPdf.SECTION_INDENT)
                    (MinutesPdf.PAGE_contentWidth - MinutesPdf.SECTION_INDENT)
                    false
                    (MinutesPdf.isBoldLine (ch :: t)
                       (if testDiscussionHeader (ch :: t) then true
                        else if testSectionNum (ch :: t) &&
                                negb (includes (js "DISCUSSION") (ch :: t))
                             then false else MinutesPdf.inDiscussion st)) c) as Hw.
      destruct (MinutesPdf.writeText h k (ch :: t) _ _ false _ c) as [b c1].
      exact Hw.
    + pose proof (writeText_fits h k (ch :: t) MinutesPdf.PAGE_marginLeft
                    MinutesPdf.PAGE_contentWidth false false c) as Hw.
      destruct (MinutesPdf.writeText h k (ch :: t) _ _ false false c) as [b c1].
      exact Hw.
Qed.

Lemma bodyLoop_fit (h : jsstring -> Q -> bool -> Q)
    (k : jsstring -> Q -> bool -> Q -> Q) (lines : list jsstring) :
  forall (st : MinutesPdf.SectionState) (c : MinutesPdf.Cursor)
         (item : MinutesPdf.BodyItem),
    In item (fst (fst (MinutesPdf.bodyLoop h k st c lines))) ->
    match item with
    | MinutesPdf.Text b =>
        (MinutesPdf.height b
         <= MinutesPdf.PAGE_bottomLimit - MinutesPdf.PAGE_marginTop)%Q ->
        fitsPage b
    | MinutesPdf.Header _ (Some b) =>
        (MinutesPdf.height b
         <= MinutesPdf.PAGE_maxY - MinutesPdf.PAGE_bottomLimit
            + MinutesPdf.LINE_HEIGHT * 2)%Q ->
        staysOnPage b
    | _ => True
    end.
Proof.
  induction lines as [|line rest IH]; intros st c item Hin; [destruct Hin|].
  rewrite pdf_bodyLoop_cons in Hin. destruct Hin as [<-|Hin].
  - apply bodyStep_fit.
  - exact (IH _ _ _ Hin).
Qed.





(* ================================================================== *)
(** ** Further properties of the two files                             *)
(* ================================================================== *)

(** *** Review markers inside a line *)

Lemma startsWith_split (p s : jsstring) :
  startsWith p s = true -> s = p ++ skipn (List.length p) s.
Proof.
  revert s. induction p as [|a p IH]; intros s H; [reflexivity|].
  destruct s as [|c s]; [discriminate H|].
  cbn [startsWith] in H. apply andb_prop in H. destruct H as [Hc Hp].
  apply N.eqb_eq in Hc. subst c. cbn [List.length skipn app].
  f_equal. now apply IH.
Qed.

Lemma startsWith_app (p s : jsstring) : startsWith p (p ++ s) = true.
Proof.
  induction p as [|a p IH]; [reflexivity|].
  cbn [app startsWith]. now rewrite N.eqb_refl, IH.
Qed.

Lemma takeWhile_dropWhile (p : N -> bool) (s : jsstring) :
  takeWhile p s ++ dropWhile p s = s.
Proof.
  induction s as [|c s IH]; [reflexivity|].
  cbn [takeWhile dropWhile]. destruct (p c); [|reflexivity].
  cbn [app]. now rewrite IH.
Qed.

Lemma takeWhile_all (p : N -> bool) (s : jsstring) :
  forallb p (takeWhile p s) = true.
Proof.
  induction s as [|c s IH]; [reflexivity|].
  cbn [takeWhile]. destruct (p c) eqn:E; [|reflexivity].
  cbn [forallb]. now rewrite E, IH.
Qed.

Lemma dropWhile_head (p : N -> bool) (s : jsstring) (b : N) (rest : jsstring) :
  dropWhile p s = b :: rest -> p b = false.
Proof.
  induction s as [|c s IH]; [discriminate|].
  cbn [dropWhile]. destruct (p c) eqn:E; [exact IH|].
  intros H. injection H as <- _. exact E.
Qed.

Lemma takeWhile_stop (p : N -> bool) (a : jsstring) (b : N) (rest : jsstring) :
  forallb p a = true -> p b = false ->
  takeWhile p (a ++ b :: rest) = a /\ dropWhile p (a ++ b :: rest) = b :: rest.
Proof.
  intros Ha Hb. induction a as [|c a IH].
  - cbn [app takeWhile dropWhile]. rewrite Hb. split; reflexivity.
  - cbn [forallb] in Ha. apply andb_prop in Ha. destruct Ha as [Hc Ha].
    cbn [app takeWhile dropWhile]. rewrite Hc.
    destruct (IH Ha) as [E1 E2]. rewrite E1, E2. split; reflexivity.
Qed.

(** The shape of a match of the marker pattern. *)
Lemma markerMatchAt_shape (s m rest : jsstring) :
  markerMatchAt s = Some (m, rest) ->
  exists inner,
    forallb notBracket inner = true /\
    m = js "[REVIEW:" ++ inner ++ [93] /\
    s = m ++ rest.
Proof.
  unfold markerMatchAt. destruct (startsWith (js "[REVIEW:") s) eqn:Hp;
    [|discriminate].
  apply startsWith_split in Hp.
  change (List.length (js "[REVIEW:")) with 8%nat in Hp.
  fold notBracket.
  destruct (dropWhile notBracket (skipn 8 s)) as [|b r] eqn:Ed; [discriminate|].
  intros H. injection H as <- <-.
  exists (takeWhile notBracket (skipn 8 s)).
  split; [apply takeWhile_all|]. split; [reflexivity|].
  pose proof (dropWhile_head _ _ _ _ Ed) as Hb.
  apply negb_false_iff, N.eqb_eq in Hb. subst b.
  rewrite Hp at 1. rewrite <- (takeWhile_dropWhile notBracket (skipn 8 s)) at 1.
  rewrite Ed. cbn. rewrite <- app_assoc. reflexivity.
Qed.

Lemma markerMatchAt_built (inner rest : jsstring) :
  forallb notBracket inner = true ->
  markerMatchAt (js "[REVIEW:" ++ inner ++ 93 :: rest)
  = Some (js "[REVIEW:" ++ inner ++ [93], rest).
Proof.
  intros H. unfold markerMatchAt. rewrite startsWith_app.
  change (skipn 8 (js "[REVIEW:" ++ inner ++ 93 :: rest))
    with (inner ++ 93 :: rest).
  fold notBracket.
  destruct (takeWhile_stop notBracket inner 93 rest H eq_refl) as [E1 E2].
  now rewrite E1, E2.
Qed.

Lemma marker_is_marker (s m rest : jsstring) :
  markerMatchAt s = Some (m, rest) -> isReviewMarker m = true.
Proof.
  intros H. destruct (markerMatchAt_shape _ _ _ H) as [inner [Hi [-> _]]].
  unfold isReviewMarker.
  change (js "[REVIEW:" ++ inner ++ [93])
    with (js "[REVIEW:" ++ inner ++ 93 :: []).
  now rewrite (markerMatchAt_built inner [] Hi).
Qed.

Lemma marker_extends (p rest : jsstring) :
  isReviewMarker p = true -> markerMatchAt (p ++ rest) = Some (p, rest).
Proof.
  unfold isReviewMarker. intros H.
  destruct (markerMatchAt p) as [[m r]|] eqn:E; [|discriminate H].
  destruct r; [|discriminate H].
  destruct (markerMatchAt_shape _ _ _ E) as [inner [Hi [Em Ep]]].
  rewrite app_nil_r in Ep. clear E H. subst p. subst m.
  rewrite <- !app_assoc.
  exact (markerMatchAt_built inner rest Hi).
Qed.

Lemma splitMarkersFrom_concat (s : jsstring) :
  forall (skip : nat) (cur : jsstring),
    List.concat (splitMarkersFrom skip cur s) = rev cur ++ skipn skip s.
Proof.
  induction s as [|c s IH]; intros skip cur.
  - cbn [splitMarkersFrom List.concat]. rewrite skipn_nil. reflexivity.
  - cbn [splitMarkersFrom]. destruct skip as [|k]; [|now rewrite IH].
    destruct (markerMatchAt (c :: s)) as [[m rest]|] eqn:E.
    + destruct (markerMatchAt_shape _ _ _ E) as [inner [_ [Em Es]]].
      cbn [List.concat]. rewrite IH. cbn [rev app skipn]. f_equal.
      destruct m as [|c0 m']; [discriminate Em|].
      cbn [app] in Es. injection Es as -> ->.
      cbn [List.length app].
      replace (S (List.length m') - 1)%nat with (List.length m') by lia.
      rewrite skipn_app, skipn_all, Nat.sub_diag. reflexivity.
    + rewrite IH. cbn [rev skipn]. now rewrite <- app_assoc.
Qed.

(** X1.  The pieces into which [ReviewText] splits a text, markers and
    the text between them, put together again give the text: nothing is
    lost and nothing is added. *)
Theorem splitMarkers_concat :
  forall text : jsstring, List.concat (splitMarkers text) = text.
Proof. intros text. unfold splitMarkers. now rewrite splitMarkersFrom_concat. Qed.

Lemma marker_count_agree (s : jsstring) :
  forall (skip : nat) (cur : jsstring),
    match skip with
    | O => cur = [] \/ markerMatchAt (rev cur ++ s) = None
    | S _ => cur = []
    end ->
    List.length (filter isReviewMarker (splitMarkersFrom skip cur s))
    = List.length (matchMarkersFrom skip s).
Proof.
  induction s as [|c s IH]; intros skip cur Inv.
  - cbn [splitMarkersFrom matchMarkersFrom filter].
    assert (E : isReviewMarker (rev cur) = false).
    { destruct skip; [destruct Inv as [->|Inv]|subst cur]; try reflexivity.
      rewrite app_nil_r in Inv. unfold isReviewMarker. now rewrite Inv. }
    now rewrite E.
  - cbn [splitMarkersFrom matchMarkersFrom]. destruct skip as [|k].
    + destruct (markerMatchAt (c :: s)) as [[m rest]|] eqn:E.
      * assert (Ecur : isReviewMarker (rev cur) = false).
        { destruct Inv as [->|Inv]; [reflexivity|].
          destruct (isReviewMarker (rev cur)) eqn:Em; [|reflexivity].
          rewrite (marker_extends _ (c :: s) Em) in Inv. discriminate Inv. }
        cbn [filter]. rewrite Ecur, (marker_is_marker _ _ _ E).
        cbn [List.length]. f_equal. apply IH.
        destruct (List.length m - 1)%nat; [now left|reflexivity].
      * apply IH. right. cbn [rev]. rewrite <- app_assoc. cbn [app].
        destruct Inv as [->|Inv]; [exact E|exact Inv].
    + apply IH. subst cur. destruct k; [now left|reflexivity].
Qed.

(** X2.  The number the meeting page shows as "to review",
    [countReviewMarkers], is the number of highlighted review spans that
    [ReviewText] produces for the same text, with or without a video
    URL. *)
Theorem countReviewMarkers_counts_spans :
  forall (text : jsstring) (videoUrl : option jsstring),
    countReviewMarkers text
    = List.length (filter isReviewSpan (ReviewText text videoUrl)).
Proof.
  intros text v. unfold countReviewMarkers, ReviewText, splitMarkers.
  rewrite <- (marker_count_agree text 0 [] (or_introl eq_refl)).
  induction (splitMarkersFrom 0 [] text) as [|part parts IH]; [reflexivity|].
  cbn [map filter]. destruct (isReviewMarker part); cbn [negb isReviewSpan];
    cbn [List.length]; now rewrite IH.
Qed.

Lemma markerMatchAt_no_bracket (c : N) (s : jsstring) :
  (91 =? c) = false -> markerMatchAt (c :: s) = None.
Proof.
  intros H. unfold markerMatchAt.
  change (startsWith (js "[REVIEW:") (c :: s))
    with ((91 =? c) && startsWith (js "REVIEW:") s).
  now rewrite H.
Qed.

Lemma splitMarkersFrom_plain (s : jsstring) :
  forall cur : jsstring,
    existsb (N.eqb 91) s = false ->
    splitMarkersFrom 0 cur s = [rev cur ++ s].
Proof.
  induction s as [|c s IH]; intros cur H.
  - cbn [splitMarkersFrom]. now rewrite app_nil_r.
  - cbn [existsb] in H. apply orb_false_elim in H. destruct H as [Hc Hs].
    cbn [splitMarkersFrom]. rewrite (markerMatchAt_no_bracket _ _ Hc).
    rewrite (IH _ Hs). cbn [rev]. now rewrite <- app_assoc.
Qed.

Lemma matchMarkersFrom_plain (s : jsstring) :
  existsb (N.eqb 91) s = false -> matchMarkersFrom 0 s = [].
Proof.
  induction s as [|c s IH]; intros H; [reflexivity|].
  cbn [existsb] in H. apply orb_false_elim in H. destruct H as [Hc Hs].
  cbn [matchMarkersFrom]. rewrite (markerMatchAt_no_bracket _ _ Hc).
  exact (IH Hs).
Qed.

(** X3.  A text without an opening square bracket holds no marker:
    [ReviewText] renders it as one plain span carrying the text
    unchanged, and [countReviewMarkers] is zero. *)
Theorem ReviewText_without_bracket :
  forall (text : jsstring) (videoUrl : option jsstring),
    existsb (N.eqb 91) text = false ->
    ReviewText text videoUrl = [PlainSpan text] /\
    countReviewMarkers text = 0%nat.
Proof.
  intros text v H.
  assert (E : ReviewText text v = [PlainSpan text]).
  { unfold ReviewText, splitMarkers. rewrite (splitMarkersFrom_plain _ _ H).
    cbn [rev app map].
    assert (Em : isReviewMarker text = false).
    { unfold isReviewMarker. destruct text as [|c t]; [reflexivity|].
      cbn [existsb] in H. apply orb_false_elim in H. destruct H as [Hc _].
      now rewrite (markerMatchAt_no_bracket _ _ Hc). }
    now rewrite Em. }
  split; [exact E|].
  unfold countReviewMarkers. now rewrite (matchMarkersFrom_plain _ H).
Qed.

Lemma ReviewText_without_bracket_witness :
  ReviewText (js "The meeting was called to order at 7:00 PM.") None
  = [PlainSpan (js "The meeting was called to order at 7:00 PM.")].
Proof.
  exact (proj1 (ReviewText_without_bracket
                  (js "The meeting was called to order at 7:00 PM.") None
                  eq_refl)).
Defined.

(** *** Stripping the timestamp *)

Lemma replaceFirstTimestamp_unfold (s : jsstring) :
  replaceFirstTimestamp s
  = match stripMatchAt s with
    | Some rest => 32 :: rest
    | None => match s with
              | [] => []
              | c :: s' => c :: replaceFirstTimestamp s'
              end
    end.
Proof. destruct s; reflexivity. Qed.

Lemma replaceFirstClose_unfold (s : jsstring) :
  replaceFirstClose s
  = match closeMatchAt s with
    | Some rest => 93 :: rest
    | None => match s with
              | [] => []
              | c :: s' => c :: replaceFirstClose s'
              end
    end.
Proof. destruct s; reflexivity. Qed.

Lemma tsSearch_none_cons (c : N) (s : jsstring) :
  tsSearch (c :: s) = None -> tsMatchAt (c :: s) = None /\ tsSearch s = None.
Proof.
  cbn [tsSearch]. destruct (tsMatchAt (c :: s)); [discriminate|].
  intros H. split; [reflexivity|exact H].
Qed.

Lemma tsSearch_none_dropWhile (p : N -> bool) (s : jsstring) :
  tsSearch s = None -> tsMatchAt (dropWhile p s) = None.
Proof.
  induction s as [|c s IH]; intros H; [reflexivity|].
  destruct (tsSearch_none_cons _ _ H) as [Hc Hs].
  cbn [dropWhile]. destruct (p c); [exact (IH Hs)|exact Hc].
Qed.

Lemma replaceFirstTimestamp_none (s : jsstring) :
  tsSearch s = None -> replaceFirstTimestamp s = s.
Proof.
  induction s as [|c s IH]; intros H; [reflexivity|].
  rewrite replaceFirstTimestamp_unfold. unfold stripMatchAt.
  rewrite (tsSearch_none_dropWhile isSpace _ H).
  destruct (tsSearch_none_cons _ _ H) as [_ Hs]. now rewrite (IH Hs).
Qed.

Lemma space_run_before_bracket (s : jsstring) :
  forall (c : N) (rest : jsstring),
    isSpace c = true ->
    dropWhile isSpace (c :: s) = 93 :: rest ->
    spaceBeforeBracket (c :: s) = true.
Proof.
  induction s as [|b s IH]; intros c rest Hc H.
  - cbn [dropWhile] in H. rewrite Hc in H. discriminate H.
  - cbn [dropWhile] in H. rewrite Hc in H.
    change (spaceBeforeBracket (c :: b :: s))
      with ((isSpace c && (b =? 93)) || spaceBeforeBracket (b :: s)).
    rewrite Hc. cbn [andb].
    destruct (isSpace b) eqn:Hb.
    + assert (E : dropWhile isSpace (b :: s) = 93 :: rest)
        by (cbn [dropWhile]; now rewrite Hb).
      rewrite (IH b rest Hb E). apply orb_true_r.
    + injection H as -> _. reflexivity.
Qed.

Lemma replaceFirstClose_none (s : jsstring) :
  spaceBeforeBracket s = false -> replaceFirstClose s = s.
Proof.
  induction s as [|c s IH]; intros H; [reflexivity|].
  rewrite replaceFirstClose_unfold.
  assert (Hm : closeMatchAt (c :: s) = None).
  { unfold closeMatchAt. destruct (isSpace c) eqn:Hc; [|reflexivity].
    destruct (dropWhile isSpace (c :: s)) as [|b rest] eqn:Ed; [reflexivity|].
    destruct (N.eqb_spec b 93) as [->|_]; [|reflexivity].
    rewrite (space_run_before_bracket s c rest Hc Ed) in H. discriminate H. }
  rewrite Hm. f_equal. apply IH.
  destruct s as [|b s]; [reflexivity|].
  change (spaceBeforeBracket (c :: b :: s))
    with ((isSpace c && (b =? 93)) || spaceBeforeBracket (b :: s)) in H.
  now apply orb_false_elim in H.
Qed.

(** X4.  A marker in which no timestamp can be parsed is displayed as it
    is written: when [parseReviewTimestamp] finds nothing and no white
    space stands directly before a closing bracket, [stripTimestamp]
    returns the marker unchanged. *)
Theorem stripTimestamp_without_timestamp :
  forall marker : jsstring,
    parseReviewTimestamp marker = None ->
    spaceBeforeBracket marker = false ->
    stripTimestamp marker = marker.
Proof.
  intros marker Hp Hs. unfold stripTimestamp.
  assert (Ht : tsSearch marker = None).
  { unfold parseReviewTimestamp in Hp.
    destruct (tsSearch marker) as [m|]; [|reflexivity].
    destruct (group3 m); discriminate Hp. }
  rewrite (replaceFirstTimestamp_none _ Ht).
  exact (replaceFirstClose_none _ Hs).
Qed.

Lemma stripTimestamp_without_timestamp_witness :
  stripTimestamp (js "[REVIEW: speaker unclear @ 7pm]")
  = js "[REVIEW: speaker unclear @ 7pm]".
Proof.
  exact (stripTimestamp_without_timestamp
           (js "[REVIEW: speaker unclear @ 7pm]") eq_refl eq_refl).
Defined.

Lemma dropWhile_all_app (p : N -> bool) (a s : jsstring) :
  forallb p a = true -> dropWhile p (a ++ s) = dropWhile p s.
Proof.
  intros H. induction a as [|c a IH]; [reflexivity|].
  cbn [forallb] in H. apply andb_prop in H. destruct H as [Hc Ha].
  cbn [app dropWhile]. rewrite Hc. exact (IH Ha).
Qed.

(** White space dropped from a text that does not end in white space:
    what is left begins with a character of the text that is no space. *)
Lemma dropWhile_keeps_end (t : jsstring) :
  forall y : jsstring,
    t <> [] -> endsWithSpace t = false ->
    exists d t', dropWhile isSpace (t ++ y) = d :: t' ++ y /\
                 isSpace d = false /\ In d t.
Proof.
  induction t as [|c t IH]; intros y Hne He; [contradiction|].
  cbn [app dropWhile]. destruct (isSpace c) eqn:Hc.
  - destruct t as [|b t].
    + cbn [endsWithSpace] in He. congruence.
    + assert (He' : endsWithSpace (b :: t) = false) by exact He.
      destruct (IH y ltac:(discriminate) He') as [d [t' [E [Hd Hin]]]].
      exists d, t'. split; [exact E|]. split; [exact Hd|now right].
  - exists c, t. split; [reflexivity|]. split; [exact Hc|now left].
Qed.

Lemma endsWithSpace_tail (c : N) (t : jsstring) :
  endsWithSpace (c :: t) = false -> endsWithSpace t = false.
Proof. destruct t as [|b t]; [reflexivity|]. intros H. exact H. Qed.

Lemma in_existsb_false (f : N -> bool) (s : jsstring) (d : N) :
  existsb f s = false -> In d s -> f d = false.
Proof.
  intros H Hin. induction s as [|c s IH]; [destruct Hin|].
  cbn [existsb] in H. apply orb_false_elim in H. destruct H as [Hc Hs].
  destruct Hin as [<-|Hin]; [exact Hc|exact (IH Hs Hin)].
Qed.

Lemma replaceFirstTimestamp_found (pre ws x rest : jsstring) (m : TsMatch) :
  noAt pre = true ->
  endsWithSpace pre = false ->
  forallb isSpace ws = true ->
  tsMatchAt x = Some m ->
  dropWhile isSpace (afterMatch m) = rest ->
  replaceFirstTimestamp (pre ++ ws ++ x) = pre ++ 32 :: rest.
Proof.
  intros Hat He Hws Hm Hrest. induction pre as [|c pre IH].
  - cbn [app]. rewrite replaceFirstTimestamp_unfold. unfold stripMatchAt.
    rewrite (dropWhile_all_app _ _ _ Hws).
    assert (Hx : dropWhile isSpace x = x).
    { destruct x as [|c0 [|d1 r1]]; try discriminate Hm.
      unfold tsMatchAt in Hm. destruct (N.eqb_spec c0 64) as [->|_];
        [reflexivity|discriminate Hm]. }
    now rewrite Hx, Hm, Hrest.
  - assert (Hat' : noAt pre = true /\ (64 =? c) = false).
    { unfold noAt in *. cbn [existsb] in Hat. apply negb_true_iff in Hat.
      apply orb_false_elim in Hat. destruct Hat as [Hc Hp].
      split; [now rewrite Hp|exact Hc]. }
    destruct Hat' as [Hat' Hc].
    rewrite replaceFirstTimestamp_unfold.
    assert (Hnone : stripMatchAt ((c :: pre) ++ ws ++ x) = None).
    { unfold stripMatchAt.
      destruct (dropWhile_keeps_end (c :: pre) (ws ++ x) ltac:(discriminate) He)
        as [d [t' [E [_ Hin]]]].
      rewrite E.
      assert (Hd : (64 =? d) = false).
      { unfold noAt in Hat. apply negb_true_iff in Hat.
        exact (in_existsb_false _ _ _ Hat Hin). }
      now rewrite (tsMatchAt_not_at _ _ Hd). }
    rewrite Hnone. cbn [app]. f_equal.
    exact (IH Hat' (endsWithSpace_tail _ _ He)).
Qed.

Lemma replaceFirstClose_found (pre tail : jsstring) :
  existsb (N.eqb 93) pre = false ->
  endsWithSpace pre = false ->
  replaceFirstClose (pre ++ 32 :: 93 :: tail) = pre ++ 93 :: tail.
Proof.
  intros Hb He. induction pre as [|c pre IH]; [reflexivity|].
  pose proof Hb as Hb0. cbn [existsb] in Hb.
  apply orb_false_elim in Hb. destruct Hb as [Hc Hp].
  rewrite replaceFirstClose_unfold.
  assert (Hnone : closeMatchAt ((c :: pre) ++ 32 :: 93 :: tail) = None).
  { unfold closeMatchAt. cbn [app]. destruct (isSpace c) eqn:Hsp; [|reflexivity].
    destruct (dropWhile_keeps_end (c :: pre) (32 :: 93 :: tail)
                ltac:(discriminate) He) as [d [t' [E [_ Hin]]]].
    cbn [app] in E. rewrite E.
    assert (Hd : (93 =? d) = false) by exact (in_existsb_false _ _ _ Hb0 Hin).
    rewrite N.eqb_sym in Hd. now rewrite Hd. }
  rewrite Hnone. cbn [app]. f_equal.
  exact (IH Hp (endsWithSpace_tail _ _ He)).
Qed.

(** X5.  Stripping removes the timestamp together with the blanks around
    it.  For a marker text [pre] (without [@] or closing bracket, not
    ending in white space), blanks [ws] and [ws'], and a time M:SS or
    H:MM:SS, [stripTimestamp] turns [pre ws @time ws' ] tail] into
    [pre ] tail]. *)
Theorem stripTimestamp_removes_time :
  forall pre ws g1 g2 g3 ws' tail : jsstring,
    noAt pre = true ->
    existsb (N.eqb 93) pre = false ->
    endsWithSpace pre = false ->
    forallb isSpace ws = true ->
    forallb isSpace ws' = true ->
    digitsOfLength 1 2 g1 = true ->
    digitsOfLength 2 2 g2 = true ->
    digitsOfLength 2 2 g3 = true ->
    stripTimestamp
      (pre ++ ws ++ js "@" ++ g1 ++ js ":" ++ g2 ++ ws' ++ js "]" ++ tail)
    = pre ++ js "]" ++ tail /\
    stripTimestamp
      (pre ++ ws ++ js "@" ++ g1 ++ js ":" ++ g2 ++ js ":" ++ g3 ++ ws' ++
       js "]" ++ tail)
    = pre ++ js "]" ++ tail.
Proof.
  intros pre ws g1 g2 g3 ws' tail Hat Hb He Hws Hws' H1 H2 H3.
  assert (Hrest : dropWhile isSpace (ws' ++ 93 :: tail) = 93 :: tail).
  { rewrite (dropWhile_all_app _ _ _ Hws'). reflexivity. }
  assert (Hpost : continuesWithSeconds (ws' ++ 93 :: tail) = false).
  { destruct ws' as [|c ws']; [destruct tail as [|a [|b r]]; reflexivity|].
    cbn [forallb] in Hws'. apply andb_prop in Hws'. destruct Hws' as [Hc _].
    cbn [app continuesWithSeconds].
    destruct (N.eqb_spec c 58) as [->|_]; [discriminate Hc|].
    destruct (ws' ++ 93 :: tail) as [|a [|b r]]; reflexivity. }
  unfold stripTimestamp.
  change (pre ++ ws ++ js "@" ++ g1 ++ js ":" ++ g2 ++ ws' ++ js "]" ++ tail)
    with (pre ++ ws ++ 64 :: g1 ++ 58 :: g2 ++ ws' ++ 93 :: tail).
  change (pre ++ ws ++ js "@" ++ g1 ++ js ":" ++ g2 ++ js ":" ++ g3 ++ ws' ++
          js "]" ++ tail)
    with (pre ++ ws ++ 64 :: g1 ++ 58 :: g2 ++ 58 :: g3 ++ ws' ++ 93 :: tail).
  change (pre ++ js "]" ++ tail) with (pre ++ 93 :: tail).
  split.
  - rewrite (replaceFirstTimestamp_found pre ws
               (64 :: g1 ++ 58 :: g2 ++ ws' ++ 93 :: tail) (93 :: tail)
               (mkTsMatch g1 g2 None (ws' ++ 93 :: tail))
               Hat He Hws (tsMatchAt_minutes _ _ _ H1 H2 Hpost) Hrest).
    exact (replaceFirstClose_found pre tail Hb He).
  - rewrite (replaceFirstTimestamp_found pre ws
               (64 :: g1 ++ 58 :: g2 ++ 58 :: g3 ++ ws' ++ 93 :: tail)
               (93 :: tail)
               (mkTsMatch g1 g2 (Some g3) (ws' ++ 93 :: tail))
               Hat He Hws (tsMatchAt_hours _ _ _ _ H1 H2 H3) Hrest).
    exact (replaceFirstClose_found pre tail Hb He).
Qed.

Lemma stripTimestamp_removes_time_witness :
  stripTimestamp (js "[REVIEW: vote count" ++ js "  " ++ js "@" ++ js "1" ++
                  js ":" ++ js "02" ++ js ":" ++ js "03" ++ js " " ++
                  js "]" ++ js " (see tape)")
  = js "[REVIEW: vote count" ++ js "]" ++ js " (see tape)".
Proof.
  exact (proj2 (stripTimestamp_removes_time
                  (js "[REVIEW: vote count") (js "  ") (js "1") (js "02")
                  (js "03") (js " ") (js " (see tape)")
                  eq_refl eq_refl eq_refl eq_refl eq_refl eq_refl eq_refl
                  eq_refl)).
Defined.

(** *** Numbered headers *)

Lemma endsWithSpace_snoc (a : jsstring) (c : N) :
  endsWithSpace (a ++ [c]) = isSpace c.
Proof.
  induction a as [|b a IH]; [reflexivity|].
  cbn [app]. destruct (a ++ [c]) as [|x y] eqn:E.
  - destruct a; discriminate E.
  - exact IH.
Qed.

Lemma endsWithSpace_rev (l : jsstring) :
  endsWithSpace (rev l) = match l with [] => false | c :: _ => isSpace c end.
Proof. destruct l as [|c l]; [reflexivity|]. cbn [rev]. apply endsWithSpace_snoc. Qed.

Lemma trim_no_space_end (s : jsstring) : endsWithSpace (trim s) = false.
Proof.
  unfold trim, trimEnd. rewrite endsWithSpace_rev.
  destruct (dropWhile isSpace (rev (trimStart s))) as [|c r] eqn:E;
    [reflexivity|].
  exact (dropWhile_head _ _ _ _ E).
Qed.

Lemma endsWithSpace_app_spaces (a ws : jsstring) :
  ws <> [] -> forallb isSpace ws = true -> endsWithSpace (a ++ ws) = true.
Proof.
  intros Hne Hws. destruct (rev ws) as [|c r] eqn:E.
  - apply (f_equal (@rev N)) in E. rewrite rev_involutive in E. contradiction.
  - assert (Ews : ws = rev r ++ [c]).
    { rewrite <- (rev_involutive ws), E. reflexivity. }
    rewrite Ews, app_assoc, endsWithSpace_snoc.
    rewrite Ews, forallb_app in Hws. apply andb_prop in Hws.
    destruct Hws as [_ Hc]. cbn [forallb] in Hc. now apply andb_prop in Hc.
Qed.

(** The matched prefix and the rest are the line; the prefix ends in the
    white-space run, the rest does not begin with white space. *)
Lemma sectionNumPattern_parts (t numText rest : jsstring) :
  sectionNumPattern t = Some (numText, rest) ->
  t = numText ++ rest /\
  (exists a ws, numText = a ++ ws /\ ws <> [] /\ forallb isSpace ws = true) /\
  (exists d, hd_error t = Some d /\ isDigit d = true).
Proof.
  unfold sectionNumPattern.
  pose proof (takeWhile_dropWhile isDigit t) as Et.
  pose proof (takeWhile_all isDigit t) as Hd.
  destruct (takeWhile isDigit t) as [|d ds] eqn:Ed; [discriminate|].
  destruct (dropWhile isDigit t) as [|dot r] eqn:Er; [discriminate|].
  destruct (N.eqb_spec dot 46) as [->|_]; [|discriminate].
  pose proof (takeWhile_dropWhile isSpace r) as Es.
  pose proof (takeWhile_all isSpace r) as Hs.
  destruct (takeWhile isSpace r) as [|w ws] eqn:Ew; [discriminate|].
  intros H. injection H as <- <-. split; [|split].
  - rewrite <- Et, <- Es at 1. cbn [app]. f_equal. rewrite <- app_assoc. reflexivity.
  - exists ((d :: ds) ++ [46]), (w :: ws). split; [now rewrite <- app_assoc|].
    split; [discriminate|exact Hs].
  - exists d. rewrite <- Et. split; [reflexivity|].
    cbn [forallb] in Hd. now apply andb_prop in Hd.
Qed.

Lemma header_rest_nonempty (line numText : jsstring) :
  forall rest' : jsstring,
    sectionNumPattern (trim line) = Some (numText, rest') ->
    skipn (List.length numText) (trim line) = rest' /\ rest' <> [].
Proof.
  intros rest' H.
  destruct (sectionNumPattern_parts _ _ _ H) as [Et [[a [ws [En [Hne Hws]]]] _]].
  split.
  - rewrite Et at 1. now rewrite skipn_app, skipn_all, Nat.sub_diag.
  - intros ->. rewrite app_nil_r in Et.
    pose proof (trim_no_space_end line) as He.
    rewrite Et, En, (endsWithSpace_app_spaces a ws Hne Hws) in He.
    discriminate He.
Qed.

(** X6.  A numbered header is cut into its number prefix and its title
    without loss, and the title is never empty: on screen the title spans
    are [ReviewText] of the rest of the trimmed line; in the paginated
    document the header always carries a title block (the branch for an
    empty title is never taken), whose text is that rest. *)
Theorem header_number_and_title :
  forall (heightOfString : jsstring -> Q -> bool -> Q)
         (continuedY : jsstring -> Q -> bool -> Q -> Q)
         (videoUrl : option jsstring) (st : SectionState)
         (pst : MinutesPdf.SectionState) (c : MinutesPdf.Cursor)
         (line : jsstring),
    (forall numText title,
        fst (bodyStep videoUrl st line) = HeaderElement numText title ->
        exists rest,
          title = ReviewText rest videoUrl /\ rest <> [] /\
          numText ++ rest = trim line) /\
    (forall numText o,
        fst (fst (MinutesPdf.bodyStep heightOfString continuedY pst c line))
        = MinutesPdf.Header numText o ->
        exists b,
          o = Some b /\ MinutesPdf.content b <> [] /\
          numText ++ MinutesPdf.content b = trim line).
Proof.
  intros h k v st pst c line. split.
  - intros numText title. unfold bodyStep.
    destruct (trim line) as [|ch t] eqn:Et; [discriminate|].
    destruct (sectionNumPattern (ch :: t)) as [[n r]|] eqn:E.
    + rewrite <- Et in E.
      destruct (header_rest_nonempty line n r E) as [Hs Hne].
      destruct (sectionNumPattern_parts _ _ _ E) as [Ht _].
      cbn [fst]. intros H. injection H as <- <-.
      exists r. rewrite <- Et, Hs. repeat split; [exact Hne|now rewrite <- Ht].
    + destruct (insideSection st && negb (isFullWidthLine (ch :: t)));
        discriminate.
  - intros numText o. unfold MinutesPdf.bodyStep, MinutesPdf.writeText.
    destruct (trim line) as [|ch t] eqn:Et; [discriminate|].
    destruct (sectionNumPattern (ch :: t)) as [[n r]|] eqn:E.
    + rewrite <- Et in E.
      destruct (header_rest_nonempty line n r E) as [Hs Hne].
      destruct (sectionNumPattern_parts _ _ _ E) as [Ht _].
      rewrite <- Et, Hs.
      destruct r as [|r0 r]; [contradiction|].
      cbn [fst]. intros H. injection H as <- <-.
      eexists. split; [reflexivity|]. cbn [MinutesPdf.content].
      split; [discriminate|now rewrite <- Ht].
    + destruct (MinutesPdf.insideSection pst &&
                negb (MinutesPdf.isFullWidthLine (ch :: t))); discriminate.
Qed.

Lemma header_number_and_title_witness :
  exists rest,
    [PlainSpan (js "CALL TO ORDER")] = ReviewText rest None /\ rest <> [] /\
    js "1. " ++ rest = trim (js "  1. CALL TO ORDER  ").
Proof.
  exact (proj1 (header_number_and_title fixedPitchHeight fixedPitchContinued
        None
                  (mkSectionState false false)
                  (MinutesPdf.mkSectionState false false)
                  (MinutesPdf.mkCursor 116 1) (js "  1. CALL TO ORDER  "))
           (js "1. ") [PlainSpan (js "CALL TO ORDER")] eq_refl).
Defined.

Lemma startsWith_digit_letter (t : jsstring) (d c : N) (lit : jsstring) :
  hd_error t = Some d -> isDigit d = true -> isLetter c = true ->
  startsWith (c :: lit) t = false.
Proof.
  intros Ht Hd Hc. destruct t as [|x t]; [discriminate Ht|].
  injection Ht as ->. cbn [startsWith].
  destruct (N.eqb_spec c d) as [->|_]; [|reflexivity].
  unfold isDigit, isLetter, isLower, isUpper in *.
  apply andb_prop in Hd. destruct Hd as [H1 H2].
  apply N.leb_le in H1, H2.
  apply orb_prop in Hc. destruct Hc as [Hc|Hc]; apply andb_prop in Hc;
    destruct Hc as [H3 H4]; apply N.leb_le in H3, H4; lia.
Qed.

(** X7.  The header test and the full-width exceptions exclude each
    other: a line that matches the numbered-header pattern starts with
    none of the ten full-width prefixes, in either renderer, so the order
    in which the two are tested does not matter. *)
Theorem header_never_full_width_exception :
  forall t : jsstring,
    testSectionNum t = true ->
    isFullWidthLine t = false /\ MinutesPdf.isFullWidthLine t = false.
Proof.
  intros t H. unfold testSectionNum in H.
  destruct (sectionNumPattern t) as [[n r]|] eqn:E; [|discriminate H].
  destruct (sectionNumPattern_parts _ _ _ E) as [_ [_ [d [Hd Hdig]]]].
  assert (L : forall lit,
             match lit with c :: _ => isLetter c | [] => false end = true ->
             startsWith lit t = false).
  { intros [|c lit] Hc; [discriminate Hc|].
    exact (startsWith_digit_letter t d c lit Hd Hdig Hc). }
  assert (E1 : isFullWidthLine t = false).
  { unfold isFullWidthLine. rewrite !L by reflexivity. reflexivity. }
  split; [exact E1|exact E1].
Qed.

Lemma header_never_full_width_exception_witness :
  isFullWidthLine (js "12. http and other matters") = false /\
  MinutesPdf.isFullWidthLine (js "12. http and other matters") = false.
Proof.
  exact (header_never_full_width_exception (js "12. http and other matters")
           eq_refl).
Defined.

(** *** The body as a whole *)

Lemma screen_body (text : jsstring) (v : option jsstring) :
  bodyElements (MinutesDocument text v)
  = fst (bodyLoop v (mkSectionState false false)
           (bodyLines (segment (splitChar 10 text)))).
Proof.
  unfold MinutesDocument. destruct (parseSignature _). reflexivity.
Qed.

Lemma screen_title (text : jsstring) (v : option jsstring) :
  titleBlock (MinutesDocument text v)
  = map trim (titleLines (segment (splitChar 10 text))).
Proof.
  unfold MinutesDocument. destruct (parseSignature _). reflexivity.
Qed.

Lemma body_triples_agree (h : jsstring -> Q -> bool -> Q)
    (k : jsstring -> Q -> bool -> Q -> Q) (text : jsstring)
  (v : option jsstring) :
  map itemTriple (MinutesPdf.bodyItems (MinutesPdf.generateMinutesPDF h k text))
  = map elementTriple (bodyElements (MinutesDocument text v)).
Proof.
  destruct (pdf_body_items h k text) as [c E]. rewrite E, screen_body.
  rewrite splitChar_replaceTabs.
  destruct (segment_replaceTabs (splitChar 10 text)) as [_ [Hb _]].
  rewrite Hb. now apply loop_agreement.
Qed.






Lemma screen_loop_blanks (v : option jsstring) (lines : list jsstring) :
  forall st : SectionState,
    map isBlankElement (fst (bodyLoop v st lines)) = map isBlankLine lines.
Proof.
  induction lines as [|line rest IH]; intros st; [reflexivity|].
  rewrite screen_bodyLoop_cons. cbn [map]. rewrite IH. f_equal.
  unfold bodyStep, isBlankLine.
  destruct (trim line) as [|ch t]; [reflexivity|].
  destruct (sectionNumPattern (ch :: t)) as [[n r]|]; [reflexivity|].
  destruct (insideSection st && negb (isFullWidthLine (ch :: t))); reflexivity.
Qed.

(** X9.  Every body line gives exactly one element in either renderer,
    and that element is the blank spacer exactly for the blank lines: the
    screen's 11px spacers and the paginated document's blank-line gaps
    stand at the same places, one per blank line of the body. *)
Theorem blank_lines_kept_one_to_one :
  forall (heightOfString : jsstring -> Q -> bool -> Q)
         (continuedY : jsstring -> Q -> bool -> Q -> Q)
         (text : jsstring)
         (videoUrl : option jsstring),
    let body := bodyLines (segment (splitChar 10 text)) in
    map isBlankElement (bodyElements (MinutesDocument text videoUrl))
    = map isBlankLine body /\
    map isGap
      (MinutesPdf.bodyItems (MinutesPdf.generateMinutesPDF heightOfString continuedY
            text))
    = map isBlankLine body.
Proof.
  intros h k text v body.
  assert (E : map isBlankElement (bodyElements (MinutesDocument text v))
              = map isBlankLine body).
  { rewrite screen_body. apply screen_loop_blanks. }
  split; [exact E|]. rewrite <- E.
  assert (Hp : forall items,
             map isGap items = map roleIsBlank (map itemTriple items)).
  { intros items. rewrite map_map. apply map_ext. intros [| |bx]; try reflexivity.
    cbn [itemTriple]. destruct (Qeq_bool _ _); reflexivity. }
  assert (Hs : forall es,
             map isBlankElement es = map roleIsBlank (map elementTriple es)).
  { intros es. rewrite map_map. apply map_ext. intros []; reflexivity. }
  now rewrite Hp, Hs, (body_triples_agree h k text v).
Qed.

(** *** The three regions *)

(** X10.  When the title boundary is not below the signature boundary,
    the three regions partition the lines: the lines before the title
    boundary, the body lines and the signature candidates, in this order,
    are the lines of the text (the title block keeps the non-blank lines
    of the first region). *)
Theorem regions_partition_lines :
  forall text : jsstring,
    let lines := splitChar 10 text in
    let seg := segment lines in
    (findTitleEnd lines <= findSigStart lines)%nat ->
    firstn (findTitleEnd lines) lines ++ bodyLines seg ++ sigLines seg = lines /\
    titleLines seg
    = filter (fun l => negb (isBlankLine l)) (firstn (findTitleEnd lines) lines).
Proof.
  intros text lines seg Hle. unfold seg, segment, slice, sliceFrom.
  cbn [bodyLines sigLines titleLines]. rewrite Nat.sub_0_r. split; [|reflexivity].
  set (te := findTitleEnd lines) in *. set (ss := findSigStart lines) in *.
  replace (skipn ss lines) with (skipn (ss - te) (skipn te lines)).
  - now rewrite (firstn_skipn (ss - te)), (firstn_skipn te).
  - rewrite skipn_skipn. f_equal. lia.
Qed.

Lemma regions_partition_lines_witness :
  firstn 2 (splitChar 10 scenario) ++
  bodyLines (segment (splitChar 10 scenario)) ++
  sigLines (segment (splitChar 10 scenario))
  = splitChar 10 scenario.
Proof.
  assert (H : (findTitleEnd (splitChar 10 scenario)
               <= findSigStart (splitChar 10 scenario))%nat)
    by (vm_compute; lia).
  exact (proj1 (regions_partition_lines scenario H)).
Defined.

Lemma findFirst_none {A : Type} (p : A -> bool) (l : list A) :
  existsb p l = false -> findFirst p l = None.
Proof.
  induction l as [|x l IH]; intros H; [reflexivity|].
  cbn [existsb] in H. apply orb_false_elim in H. destruct H as [Hx Hl].
  cbn [findFirst]. now rewrite Hx, (IH Hl).
Qed.

(** X11.  Without a line that starts with "A Worksession", "A Regular"
    or "A Combined" there is no title block: both renderers show no
    title line, and the body begins with the first line of the text. *)
Theorem no_title_boundary_no_title_block :
  forall (heightOfString : jsstring -> Q -> bool -> Q)
         (continuedY : jsstring -> Q -> bool -> Q -> Q)
         (text : jsstring)
         (videoUrl : option jsstring),
    existsb isTitleBoundary (splitChar 10 text) = false ->
    titleBlock (MinutesDocument text videoUrl) = [] /\
    MinutesPdf.titleBoxes (MinutesPdf.generateMinutesPDF heightOfString continuedY
          text)
    = [] /\
    bodyLines (segment (splitChar 10 text))
    = firstn (findSigStart (splitChar 10 text)) (splitChar 10 text).
Proof.
  intros h k text v H.
  assert (Ete : findTitleEnd (splitChar 10 text) = 0%nat).
  { unfold findTitleEnd. now rewrite (findFirst_none _ _ H). }
  assert (Et : titleLines (segment (splitChar 10 text)) = []).
  { unfold segment, slice. cbn [titleLines]. now rewrite Ete. }
  split; [|split].
  - now rewrite screen_title, Et.
  - destruct (pdf_title_boxes h k text) as [c Ec]. rewrite Ec.
    rewrite splitChar_replaceTabs.
    destruct (segment_replaceTabs (splitChar 10 text)) as [Pt _].
    rewrite Pt, Et. reflexivity.
  - unfold segment, slice. cbn [bodyLines]. rewrite Ete.
    now rewrite Nat.sub_0_r.
Qed.

Lemma no_title_boundary_no_title_block_witness :
  titleBlock (MinutesDocument (js "NOTICE" ++ [10] ++ js "1. ROLL CALL") None)
  = [].
Proof.
  exact (proj1 (no_title_boundary_no_title_block fixedPitchHeight fixedPitchContinued
                  (js "NOTICE" ++ [10] ++ js "1. ROLL CALL") None eq_refl)).
Defined.

(** *** The signature parser *)

Lemma sigStep_same (acc : list jsstring * list jsstring) (line : jsstring) :
  MinutesPdf.sigStep acc line = sigStep acc line.
Proof.
  unfold MinutesPdf.sigStep, sigStep. destruct acc as [names titles].
  destruct (includes (js "___") (trim line) ||
            (List.length (trim line) =? 0)%nat); [reflexivity|].
  destruct (List.length names <? 2)%nat;
    destruct (splitGaps (trim line)) as [|p0 [|p1 ps]]; reflexivity.
Qed.

Lemma parseSignature_same (lines : list jsstring) :
  MinutesPdf.parseSignature lines = parseSignature lines.
Proof.
  unfold MinutesPdf.parseSignature, parseSignature.
  generalize (@nil jsstring, @nil jsstring).
  induction lines as [|l lines IH]; intros acc; [reflexivity|].
  cbn [fold_left]. now rewrite sigStep_same, IH.
Qed.

Lemma replaceTabs_without_tab (s : jsstring) :
  existsb (N.eqb 9) s = false -> replaceTabs s = s.
Proof.
  induction s as [|c s IH]; intros H; [reflexivity|].
  cbn [existsb] in H. apply orb_false_elim in H. destruct H as [Hc Hs].
  rewrite N.eqb_sym in Hc. rewrite (replaceTabs_other c s Hc). now rewrite IH.
Qed.

Lemma orElse_shown (arr : list jsstring) (i : nat) (dflt x : jsstring) :
  orElse arr i [] = x -> x <> [] -> MinutesPdf.orElse arr i dflt = x.
Proof.
  unfold orElse, MinutesPdf.orElse.
  destruct (nth_error arr i) as [[|c s]|]; intros <- H; try contradiction.
  reflexivity.
Qed.

(** X12.  On a text without tab characters the two renderers read the
    signature alike: every name or title that the screen shows (a
    non-empty field of its signature block) stands in the same field of
    the paginated document. *)
Theorem signature_fields_agree_without_tabs :
  forall (heightOfString : jsstring -> Q -> bool -> Q)
         (continuedY : jsstring -> Q -> bool -> Q -> Q)
         (text : jsstring)
         (videoUrl : option jsstring) (sv : SignatureView),
    existsb (N.eqb 9) text = false ->
    signatureBlock (MinutesDocument text videoUrl) = Some sv ->
    let pdf := MinutesPdf.signature
                 (MinutesPdf.generateMinutesPDF heightOfString continuedY
                       text) in
    (nameLeft sv <> [] -> MinutesPdf.nameLeft pdf = nameLeft sv) /\
    (nameRight sv <> [] -> MinutesPdf.nameRight pdf = nameRight sv) /\
    (titleLeft sv <> [] -> MinutesPdf.titleLeft pdf = titleLeft sv) /\
    (titleRight sv <> [] -> MinutesPdf.titleRight pdf = titleRight sv).
Proof.
  intros h k text v sv Htab Hsv pdf.
  destruct (pdf_signature_fields h k text) as [P1 [P2 [P3 P4]]].
  fold pdf in P1, P2, P3, P4.
  rewrite (replaceTabs_without_tab _ Htab) in P1, P2, P3, P4.
  assert (Eseg : MinutesPdf.sigLines (MinutesPdf.segment (splitChar 10 text))
                 = sigLines (segment (splitChar 10 text))) by reflexivity.
  rewrite Eseg, parseSignature_same in P1, P2, P3, P4.
  rewrite screen_signature_block in Hsv. cbv zeta in Hsv.
  destruct (0 <? List.length
                   (fst (parseSignature (sigLines (segment (splitChar 10 text))))))%nat;
    [|discriminate Hsv].
  injection Hsv as <-. cbn [nameLeft nameRight titleLeft titleRight].
  repeat split; intros Hne.
  - rewrite P1. now apply orElse_shown.
  - rewrite P2. now apply orElse_shown.
  - rewrite P3. now apply orElse_shown.
  - rewrite P4. now apply orElse_shown.
Qed.

Lemma signature_fields_agree_without_tabs_witness :
  MinutesPdf.nameRight
    (MinutesPdf.signature
       (MinutesPdf.generateMinutesPDF fixedPitchHeight fixedPitchContinued
             scenario))
  = js "John Roe".
Proof.
  exact (proj1 (proj2 (signature_fields_agree_without_tabs fixedPitchHeight fixedPitchContinued
                         scenario None
                         (mkSignatureView (js "Jane Doe") (js "John Roe")
                            (js "Council President") (js "Township Clerk"))
                         eq_refl eq_refl))
           ltac:(discriminate)).
Defined.

Lemma sigStep_invariant (acc : list jsstring * list jsstring) (line : jsstring) :
  ((List.length (fst acc) <= 3)%nat /\
   (snd acc <> [] -> (2 <= List.length (fst acc))%nat)) ->
  (List.length (fst (sigStep acc line)) <= 3)%nat /\
  (snd (sigStep acc line) <> [] ->
   (2 <= List.length (fst (sigStep acc line)))%nat).
Proof.
  destruct acc as [names titles]. cbn [fst snd]. intros [H3 H2].
  unfold sigStep.
  destruct (includes (js "___") (trim line) ||
            (List.length (trim line) =? 0)%nat); [now split|].
  destruct (List.length names <? 2)%nat eqn:E.
  - apply Nat.ltb_lt in E. cbn [fst snd]. split.
    + rewrite length_app.
      destruct (splitGaps (trim line)) as [|p0 [|p1 ps]]; cbn [List.length]; lia.
    + intros Ht. specialize (H2 Ht). lia.
  - apply Nat.ltb_ge in E. cbn [fst snd]. split; [exact H3|intros _; exact E].
Qed.

(** X13.  The signature parser keeps at most three names, and puts a
    line into the titles only once two names are present: parsed titles
    imply at least two parsed names.  This holds for both renderers,
    whose parsers agree on every list of lines. *)
Theorem signature_names_before_titles :
  forall sigLines : list jsstring,
    let parsed := parseSignature sigLines in
    MinutesPdf.parseSignature sigLines = parsed /\
    (List.length (fst parsed) <= 3)%nat /\
    (snd parsed <> [] -> (2 <= List.length (fst parsed))%nat).
Proof.
  intros sl parsed. split; [apply parseSignature_same|].
  unfold parsed, parseSignature.
  assert (G : forall acc,
             ((List.length (fst acc) <= 3)%nat /\
              (snd acc <> [] -> (2 <= List.length (fst acc))%nat)) ->
             (List.length (fst (fold_left sigStep sl acc)) <= 3)%nat /\
             (snd (fold_left sigStep sl acc) <> [] ->
              (2 <= List.length (fst (fold_left sigStep sl acc)))%nat)).
  { induction sl as [|l sl IH]; intros acc Hacc; [exact Hacc|].
    cbn [fold_left]. apply IH. now apply sigStep_invariant. }
  apply G. cbn [fst snd List.length]. split; [lia|]. intros H. now contradiction H.
Qed.

(** *** The cursor of the pagination renderer *)

Lemma notBefore_refl (p : nat) (y : Q) : notBefore p y p y.
Proof. right. split; [reflexivity|apply Qle_refl]. Qed.

Lemma notBefore_trans (p1 p2 p3 : nat) (y1 y2 y3 : Q) :
  notBefore p1 y1 p2 y2 -> notBefore p2 y2 p3 y3 -> notBefore p1 y1 p3 y3.
Proof.
  unfold notBefore. intros [H1|[E1 L1]] [H2|[E2 L2]].
  - left. lia.
  - left. lia.
  - left. lia.
  - right. split; [lia|exact (Qle_trans _ _ _ L1 L2)].
Qed.

Lemma ensureSpace_notBefore (needed : Q) (c : MinutesPdf.Cursor) :
  notBefore (MinutesPdf.pageNum c) (MinutesPdf.y c)
            (MinutesPdf.pageNum (MinutesPdf.ensureSpace needed c))
            (MinutesPdf.y (MinutesPdf.ensureSpace needed c)).
Proof.
  unfold MinutesPdf.ensureSpace. destruct (Qle_bool _ _).
  - apply notBefore_refl.
  - left. cbn. lia.
Qed.

Lemma blankLine_notBefore (c : MinutesPdf.Cursor) :
  notBefore (MinutesPdf.pageNum c) (MinutesPdf.y c)
            (MinutesPdf.pageNum (MinutesPdf.blankLine c))
            (MinutesPdf.y (MinutesPdf.blankLine c)).
Proof.
  right. split; [reflexivity|]. cbn [MinutesPdf.blankLine MinutesPdf.y].
  unfold MinutesPdf.LINE_HEIGHT, MinutesPdf.FONT_SIZE, MinutesPdf.LINE_GAP. lra.
Qed.

Lemma after_trans (o : option (nat * Q)) (p1 p2 : nat) (y1 y2 : Q) :
  after o p1 y1 -> notBefore p1 y1 p2 y2 -> after o p2 y2.
Proof.
  destruct o as [[p0 y0]|]; [|trivial]. cbn [after].
  apply notBefore_trans.
Qed.

Lemma chainFrom_app (l1 l2 : list MinutesPdf.TextBox) :
  forall o : option (nat * Q),
    chainFrom o l1 -> chainFrom (endOf o l1) l2 -> chainFrom o (l1 ++ l2).
Proof.
  induction l1 as [|b bs IH]; intros o H1 H2; [exact H2|].
  cbn [app chainFrom endOf] in *. destruct H1 as [Hb Hbs]. split; [exact Hb|].
  now apply IH.
Qed.

Lemma endOf_app (l1 l2 : list MinutesPdf.TextBox) :
  forall o : option (nat * Q), endOf o (l1 ++ l2) = endOf (endOf o l1) l2.
Proof.
  induction l1 as [|b bs IH]; intros o; [reflexivity|].
  cbn [app endOf]. apply IH.
Qed.

(** The cursor after a block is not before its end, when the block stays
    on its page. *)
Lemma textEnd_after (h : jsstring -> Q -> bool -> Q)
    (k : jsstring -> Q -> bool -> Q -> Q)
  (text : jsstring) (x w : Q) (ac bl : bool) (p : nat) (y0 : Q) :
  after (endOfBox (MinutesPdf.mkTextBox p y0 (h text w bl) text x w bl ac))
        p (MinutesPdf.textEnd h k text w bl y0).
Proof.
  unfold endOfBox, MinutesPdf.textEnd.
  cbn [MinutesPdf.top MinutesPdf.height MinutesPdf.page].
  destruct (Qle_bool (y0 + h text w bl) MinutesPdf.PAGE_maxY); cbn [after];
    [apply notBefore_refl|exact I].
Qed.

Lemma writeText_drawn (h : jsstring -> Q -> bool -> Q)
    (k : jsstring -> Q -> bool -> Q -> Q) (text : jsstring)
  (x w : Q) (ac bl : bool) (c : MinutesPdf.Cursor) (o : option (nat * Q)) :
  after o (MinutesPdf.pageNum c) (MinutesPdf.y c) ->
  drawn o [fst (MinutesPdf.writeText h k text x w ac bl c)]
        (snd (MinutesPdf.writeText h k text x w ac bl c)).
Proof.
  intros H. unfold drawn, MinutesPdf.writeText.
  cbn [fst snd chainFrom endOf MinutesPdf.pageNum MinutesPdf.y].
  split; [split; [|exact I]|apply textEnd_after].
  cbn [MinutesPdf.page MinutesPdf.top].
  exact (after_trans _ _ _ _ _ H (ensureSpace_notBefore _ c)).
Qed.

Lemma drawn_app (o : option (nat * Q)) (l1 l2 : list MinutesPdf.TextBox)
  (c1 c2 : MinutesPdf.Cursor) :
  drawn o l1 c1 ->
  (forall o', after o' (MinutesPdf.pageNum c1) (MinutesPdf.y c1) ->
              drawn o' l2 c2) ->
  drawn o (l1 ++ l2) c2.
Proof.
  intros [H1 E1] H2. specialize (H2 _ E1). destruct H2 as [H2 E2].
  split; [now apply chainFrom_app|]. now rewrite endOf_app.
Qed.

Lemma renderTitle_drawn (h : jsstring -> Q -> bool -> Q)
    (k : jsstring -> Q -> bool -> Q -> Q)
  (lines : list jsstring) :
  forall (c : MinutesPdf.Cursor) (o : option (nat * Q)),
    after o (MinutesPdf.pageNum c) (MinutesPdf.y c) ->
    drawn o (fst (MinutesPdf.renderTitle h k lines c))
          (snd (MinutesPdf.renderTitle h k lines c)).
Proof.
  induction lines as [|line rest IH]; intros c o H.
  - split; [exact I|exact H].
  - rewrite pdf_renderTitle_cons. cbv zeta. cbn [fst snd].
    apply (drawn_app o [_] _ _ _
             (writeText_drawn h k (trim line) MinutesPdf.PAGE_marginLeft
                MinutesPdf.PAGE_contentWidth true true c o H)).
    intros o' H'. now apply IH.
Qed.

Lemma bodyStep_drawn (h : jsstring -> Q -> bool -> Q)
    (k : jsstring -> Q -> bool -> Q -> Q)
  (st : MinutesPdf.SectionState) (c : MinutesPdf.Cursor) (line : jsstring)
  (o : option (nat * Q)) :
  after o (MinutesPdf.pageNum c) (MinutesPdf.y c) ->
  drawn o (boxOf (fst (fst (MinutesPdf.bodyStep h k st c line))))
        (snd (MinutesPdf.bodyStep h k st c line)).
Proof.
  intros H. unfold MinutesPdf.bodyStep.
  destruct (trim line) as [|ch t].
  { split; [exact I|]. cbn [fst snd boxOf endOf].
    exact (after_trans _ _ _ _ _ H (blankLine_notBefore c)). }
  destruct (sectionNumPattern (ch :: t)) as [[numText rest]|].
  - pose proof (after_trans _ _ _ _ _ H
                  (ensureSpace_notBefore (MinutesPdf.LINE_HEIGHT * 2) c)) as H1.
    destruct (skipn (List.length numText) (ch :: t)) as [|r rs].
    + split; [exact I|exact H1].
    + split; [split; [exact H1|exact I]|].
      cbn [fst snd boxOf endOf MinutesPdf.pageNum MinutesPdf.y].
      apply textEnd_after.
  - destruct (MinutesPdf.insideSection st &&
              negb (MinutesPdf.isFullWidthLine (ch :: t))).
    + match goal with
      | |- context [MinutesPdf.writeText h k ?a ?b ?c0 ?d ?e ?f] =>
          pose proof (writeText_drawn h k a b c0 d e f o H) as Hw;
          destruct (MinutesPdf.writeText h k a b c0 d e f) as [bx c1]
      end.
      exact Hw.
    + match goal with
      | |- context [MinutesPdf.writeText h k ?a ?b ?c0 ?d ?e ?f] =>
          pose proof (writeText_drawn h k a b c0 d e f o H) as Hw;
          destruct (MinutesPdf.writeText h k a b c0 d e f) as [bx c1]
      end.
      exact Hw.
Qed.

Lemma pdf_bodyLoop_cursor (h : jsstring -> Q -> bool -> Q)
    (k : jsstring -> Q -> bool -> Q -> Q)
  (st : MinutesPdf.SectionState) (c : MinutesPdf.Cursor)
  (line : jsstring) (rest : list jsstring) :
  snd (MinutesPdf.bodyLoop h k st c (line :: rest))
  = snd (MinutesPdf.bodyLoop h k
           (snd (fst (MinutesPdf.bodyStep h k st c line)))
           (snd (MinutesPdf.bodyStep h k st c line)) rest).
Proof.
  cbn [MinutesPdf.bodyLoop].
  destruct (MinutesPdf.bodyStep h k st c line) as [[item st1] c1].
  cbn [fst snd].
  destruct (MinutesPdf.bodyLoop h k st1 c1 rest) as [[items st2] c2].
  reflexivity.
Qed.

Lemma bodyLoop_drawn (h : jsstring -> Q -> bool -> Q)
    (k : jsstring -> Q -> bool -> Q -> Q) (lines : list jsstring) :
  forall (st : MinutesPdf.SectionState) (c : MinutesPdf.Cursor)
         (o : option (nat * Q)),
    after o (MinutesPdf.pageNum c) (MinutesPdf.y c) ->
    drawn o (flat_map boxOf (fst (fst (MinutesPdf.bodyLoop h k st c lines))))
          (snd (MinutesPdf.bodyLoop h k st c lines)).
Proof.
  induction lines as [|line rest IH]; intros st c o H.
  - split; [exact I|exact H].
  - rewrite pdf_bodyLoop_cons, pdf_bodyLoop_cursor. cbn [flat_map].
    apply (drawn_app o _ _ (snd (MinutesPdf.bodyStep h k st c line))).
    + now apply bodyStep_drawn.
    + intros o' H'. now apply IH.
Qed.

(** The paginated document in terms of the three loops. *)
Lemma pdf_unfold (h : jsstring -> Q -> bool -> Q)
    (k : jsstring -> Q -> bool -> Q -> Q) (text : jsstring) :
  let seg := MinutesPdf.segment (splitChar 10 (replaceTabs text)) in
  let rt := MinutesPdf.renderTitle h k (MinutesPdf.titleLines seg)
              (MinutesPdf.blankLine
                 (MinutesPdf.blankLine
                    (MinutesPdf.mkCursor MinutesPdf.PAGE_marginTop 1))) in
  let bl := MinutesPdf.bodyLoop h k (MinutesPdf.mkSectionState false false)
              (MinutesPdf.blankLine (MinutesPdf.blankLine (snd rt)))
              (MinutesPdf.bodyLines seg) in
  let c4 := MinutesPdf.blankLine
              (MinutesPdf.blankLine (MinutesPdf.ensureSpace 60 (snd bl))) in
  let pdf := MinutesPdf.generateMinutesPDF h k text in
  MinutesPdf.titleBoxes pdf = fst rt /\
  MinutesPdf.bodyItems pdf = fst (fst bl) /\
  MinutesPdf.pageCount pdf = MinutesPdf.pageNum c4 /\
  MinutesPdf.sigPage (MinutesPdf.signature pdf) = MinutesPdf.pageNum c4 /\
  MinutesPdf.ruleTop (MinutesPdf.signature pdf) = MinutesPdf.y c4 /\
  MinutesPdf.namesTop (MinutesPdf.signature pdf) = (MinutesPdf.y c4 + 4)%Q /\
  MinutesPdf.titlesTop (MinutesPdf.signature pdf)
  = (MinutesPdf.y c4 + 4 + MinutesPdf.LINE_HEIGHT)%Q.
Proof.
  cbv zeta. unfold MinutesPdf.generateMinutesPDF.
  destruct (MinutesPdf.renderTitle h k _ _) as [tb c1]. cbn [snd fst].
  destruct (MinutesPdf.bodyLoop h k _ _ _) as [[items st] c3]. cbn [snd fst].
  destruct (MinutesPdf.parseSignature _) as [names titles].
  repeat split.
Qed.

Lemma allBoxes_boxOf (d : MinutesPdf.PdfDocument) :
  allBoxes d
  = MinutesPdf.titleBoxes d ++ flat_map boxOf (MinutesPdf.bodyItems d).
Proof. reflexivity. Qed.

Lemma allBoxes_chain (h : jsstring -> Q -> bool -> Q)
    (k : jsstring -> Q -> bool -> Q -> Q) (text : jsstring) :
  chainFrom (Some (1%nat, MinutesPdf.PAGE_marginTop))
            (allBoxes (MinutesPdf.generateMinutesPDF h k text)).
Proof.
  pose proof (pdf_unfold h k text) as U. cbv zeta in U.
  destruct U as [Ut [Ub _]].
  rewrite allBoxes_boxOf, Ut, Ub.
  refine (proj1 (drawn_app _ _ _ _ _ _ _)).
  - apply renderTitle_drawn. cbn [after].
    eapply notBefore_trans; [|apply blankLine_notBefore].
    apply (blankLine_notBefore (MinutesPdf.mkCursor MinutesPdf.PAGE_marginTop 1)).
  - intros o' H'. apply bodyLoop_drawn.
    eapply after_trans; [|apply blankLine_notBefore].
    eapply after_trans; [exact H'|apply blankLine_notBefore].
Qed.

Lemma chain_adjacent (l : list MinutesPdf.TextBox) :
  forall (o : option (nat * Q)) (i : nat) (b1 b2 : MinutesPdf.TextBox),
    chainFrom o l ->
    nth_error l i = Some b1 -> nth_error l (S i) = Some b2 ->
    after (endOfBox b1) (MinutesPdf.page b2) (MinutesPdf.top b2).
Proof.
  induction l as [|b0 bs IH]; intros o i b1 b2 H H1 H2;
    [destruct i; discriminate H1|].
  cbn [chainFrom] in H. destruct H as [_ Hbs].
  destruct i as [|i].
  - cbn [nth_error] in H1, H2. injection H1 as <-.
    destruct bs as [|b bs']; [discriminate H2|].
    cbn [nth_error] in H2. injection H2 as <-.
    cbn [chainFrom] in Hbs. exact (proj1 Hbs).
  - cbn [nth_error] in H1. exact (IH _ i b1 b2 Hbs H1 H2).
Qed.

Lemma header_boxes_stay (h : jsstring -> Q -> bool -> Q)
    (k : jsstring -> Q -> bool -> Q -> Q) (text : jsstring)
  (b : MinutesPdf.TextBox) :
  In b (headerBoxes (MinutesPdf.generateMinutesPDF h k text)) ->
  (MinutesPdf.height b
   <= MinutesPdf.PAGE_maxY - MinutesPdf.PAGE_bottomLimit
      + MinutesPdf.LINE_HEIGHT * 2)%Q ->
  staysOnPage b.
Proof.
  unfold headerBoxes.
  destruct (pdf_body_items h k text) as [c2 E2]. rewrite E2. intros Hin Hh.
  apply in_flat_map in Hin. destruct Hin as [item [Hitem Hb]].
  pose proof (bodyLoop_fit h k _ _ _ _ Hitem) as Hfit.
  destruct item as [|numText [b'|]|b']; cbn in Hb.
  - destruct Hb.
  - destruct Hb as [<-|[]]. now apply Hfit.
  - destruct Hb.
  - destruct Hb.
Qed.

(** X14.  A section header is drawn after two line heights (22pt) have
    been secured above the bottom content limit, which itself lies 14pt
    above the bottom margin.  So a header title whose wrapped height is
    at most 36pt ends above the bottom margin of its page, whatever the
    position the header is reached at: the library draws all of it on
    that page. *)
Theorem short_header_titles_stay_on_page :
  forall (heightOfString : jsstring -> Q -> bool -> Q)
         (continuedY : jsstring -> Q -> bool -> Q -> Q)
         (text : jsstring) (b : MinutesPdf.TextBox),
    In b (headerBoxes
            (MinutesPdf.generateMinutesPDF heightOfString continuedY text)) ->
    (MinutesPdf.height b <= 36)%Q ->
    staysOnPage b.
Proof.
  intros h k text b Hin Hh. apply (header_boxes_stay h k text b Hin).
  assert (E : (MinutesPdf.PAGE_maxY - MinutesPdf.PAGE_bottomLimit
               + MinutesPdf.LINE_HEIGHT * 2 == 36)%Q) by reflexivity.
  rewrite E. exact Hh.
Qed.

Lemma short_header_titles_stay_on_page_witness :
  staysOnPage (MinutesPdf.mkTextBox 1 149 11 (js "CALL TO ORDER")
                 108 432 true false).
Proof.
  apply (short_header_titles_stay_on_page fixedPitchHeight fixedPitchContinued
           scenario).
  - vm_compute. left. reflexivity.
  - vm_compute. discriminate.
Defined.

(** X15.  Text blocks keep their reading order and do not overlap: of
    two blocks drawn one after the other, the first of which ends above
    the bottom margin of its page, the second lies on a later page or on
    the same page at or below the end of the first.  This holds for
    every measure and for every position the library leaves behind when
    an earlier block did not stay on its page. *)
Theorem blocks_in_reading_order :
  forall (heightOfString : jsstring -> Q -> bool -> Q)
         (continuedY : jsstring -> Q -> bool -> Q -> Q)
         (text : jsstring) (i : nat) (b1 b2 : MinutesPdf.TextBox),
    let pdf := MinutesPdf.generateMinutesPDF heightOfString continuedY text in
    nth_error (allBoxes pdf) i = Some b1 ->
    nth_error (allBoxes pdf) (S i) = Some b2 ->
    staysOnPage b1 ->
    (MinutesPdf.page b1 < MinutesPdf.page b2)%nat \/
    (MinutesPdf.page b1 = MinutesPdf.page b2 /\
     (MinutesPdf.top b1 + MinutesPdf.height b1 <= MinutesPdf.top b2)%Q).
Proof.
  intros h k text i b1 b2 pdf H1 H2 Hs. unfold pdf in *.
  pose proof (chain_adjacent _ _ i b1 b2 (allBoxes_chain h k text) H1 H2) as H.
  unfold endOfBox in H. apply Qle_bool_iff in Hs. rewrite Hs in H. exact H.
Qed.

Lemma blocks_in_reading_order_witness :
  (1 < 1)%nat \/ (1%nat = 1%nat /\ (94 + 11 <= 105)%Q).
Proof.
  refine (blocks_in_reading_order fixedPitchHeight fixedPitchContinued
            scenario 0
            (MinutesPdf.mkTextBox 1 94 11 (js "TOWNSHIP OF EDISON")
               72 468 true true)
            (MinutesPdf.mkTextBox 1 105 11 (js "MINUTES") 72 468 true true)
            _ _ _); vm_compute; solve [reflexivity | discriminate].
Defined.

(** X16.  The signature block has room on the last page: after 60pt
    have been secured and two blank lines left, the rule, the names row
    and the titles row follow each other downwards and the titles row
    (one line high) ends above the bottom content limit. *)
Theorem signature_block_has_room :
  forall (heightOfString : jsstring -> Q -> bool -> Q)
         (continuedY : jsstring -> Q -> bool -> Q -> Q)
         (text : jsstring),
    let sg := MinutesPdf.signature
                (MinutesPdf.generateMinutesPDF heightOfString continuedY
                      text) in
    (MinutesPdf.ruleTop sg < MinutesPdf.namesTop sg)%Q /\
    (MinutesPdf.namesTop sg < MinutesPdf.titlesTop sg)%Q /\
    (MinutesPdf.titlesTop sg + MinutesPdf.LINE_HEIGHT
     <= MinutesPdf.PAGE_bottomLimit)%Q.
Proof.
  intros h k text sg. unfold sg.
  pose proof (pdf_unfold h k text) as U. cbv zeta in U.
  destruct U as [_ [_ [_ [_ [Ur [Un Ut]]]]]]. rewrite Ur, Un, Ut.
  cbn [MinutesPdf.blankLine MinutesPdf.y].
  match goal with
  | |- context [MinutesPdf.ensureSpace 60 ?c] =>
      pose proof (ensureSpace_room 60 c ltac:(vm_compute; discriminate)) as Hr;
      generalize dependent (MinutesPdf.y (MinutesPdf.ensureSpace 60 c))
  end.
  intros y0 Hr.
  unfold MinutesPdf.LINE_HEIGHT, MinutesPdf.FONT_SIZE, MinutesPdf.LINE_GAP,
    MinutesPdf.PAGE_bottomLimit, MinutesPdf.PAGE_height,
    MinutesPdf.PAGE_marginBottom in *.
  repeat split; lra.
Qed.

Section NonNegativeMeasure.

Variable h : jsstring -> Q -> bool -> Q.
Variable k : jsstring -> Q -> bool -> Q -> Q.
Hypothesis h_nonneg : forall text w b, (0 <= h text w b)%Q.
Hypothesis k_below :
  forall text w b top, (MinutesPdf.PAGE_marginTop <= k text w b top)%Q.









End NonNegativeMeasure.



Lemma signature_names_before_titles_witness :
  (2 <= List.length
          (fst (parseSignature
                  (sigLines (segment (splitChar 10 scenario))))))%nat.
Proof.
  refine (proj2 (proj2 (signature_names_before_titles
                          (sigLines (segment (splitChar 10 scenario))))) _).
  vm_compute. discriminate.
Defined.

(** *** The date of the running header *)

Lemma splitChar_whole (sep : N) (a : jsstring) :
  existsb (N.eqb sep) a = false -> splitChar sep a = [a].
Proof.
  induction a as [|c a IH]; intros H; [reflexivity|].
  cbn [existsb] in H. apply orb_false_elim in H. destruct H as [Hc Ha].
  rewrite N.eqb_sym in Hc. cbn [splitChar]. now rewrite Hc, (IH Ha).
Qed.

Lemma splitChar_first (sep : N) (a b : jsstring) :
  existsb (N.eqb sep) a = false ->
  splitChar sep (a ++ sep :: b) = a :: splitChar sep b.
Proof.
  induction a as [|c a IH]; intros H.
  - cbn [app splitChar]. now rewrite N.eqb_refl.
  - cbn [existsb] in H. apply orb_false_elim in H. destruct H as [Hc Ha].
    rewrite N.eqb_sym in Hc. cbn [app splitChar]. now rewrite Hc, (IH Ha).
Qed.

(** X18.  [formatHeaderDate] turns an ISO date "Y-M-D" into "M/D/Y" for
    any three dash-free parts, ignoring whatever follows a further dash;
    for a string without any dash, month and day are missing and print as
    "undefined". *)
Theorem formatHeaderDate_reorders :
  forall y m d more : jsstring,
    existsb (N.eqb 45) y = false ->
    existsb (N.eqb 45) m = false ->
    existsb (N.eqb 45) d = false ->
    MinutesPdf.formatHeaderDate (y ++ js "-" ++ m ++ js "-" ++ d)
    = m ++ js "/" ++ d ++ js "/" ++ y /\
    MinutesPdf.formatHeaderDate
      (y ++ js "-" ++ m ++ js "-" ++ d ++ js "-" ++ more)
    = m ++ js "/" ++ d ++ js "/" ++ y /\
    MinutesPdf.formatHeaderDate y
    = js "undefined" ++ js "/" ++ js "undefined" ++ js "/" ++ y.
Proof.
  intros y m d more Hy Hm Hd. unfold MinutesPdf.formatHeaderDate.
  change (y ++ js "-" ++ m ++ js "-" ++ d) with (y ++ 45 :: m ++ 45 :: d).
  change (y ++ js "-" ++ m ++ js "-" ++ d ++ js "-" ++ more)
    with (y ++ 45 :: m ++ 45 :: d ++ 45 :: more).
  rewrite !(splitChar_first 45 y) by exact Hy.
  rewrite !(splitChar_first 45 m) by exact Hm.
  rewrite (splitChar_first 45 d) by exact Hd.
  rewrite (splitChar_whole 45 d Hd), (splitChar_whole 45 y Hy).
  repeat split.
Qed.

Lemma formatHeaderDate_reorders_witness :
  MinutesPdf.formatHeaderDate (js "2026" ++ js "-" ++ js "03" ++ js "-" ++ js "09")
  = js "03" ++ js "/" ++ js "09" ++ js "/" ++ js "2026".
Proof.
  exact (proj1 (formatHeaderDate_reorders (js "2026") (js "03") (js "09") []
                  eq_refl eq_refl eq_refl)).
Defined.

(** *** Columns of a signature row *)

Lemma singleSpaced_tail (c : N) (s : jsstring) :
  singleSpaced (c :: s) = true -> singleSpaced s = true.
Proof.
  destruct s as [|d s]; [reflexivity|].
  change (singleSpaced (c :: d :: s))
    with (negb (isSpace c && isSpace d) && singleSpaced (d :: s)).
  intros H. now apply andb_prop in H.
Qed.

Lemma singleSpaced_next (c d : N) (s : jsstring) :
  singleSpaced (c :: d :: s) = true -> isSpace c = true -> isSpace d = false.
Proof.
  change (singleSpaced (c :: d :: s))
    with (negb (isSpace c && isSpace d) && singleSpaced (d :: s)).
  intros H Hc. apply andb_prop in H. destruct H as [H _].
  rewrite Hc in H. cbn [andb] in H. now apply negb_true_iff in H.
Qed.

(** Inside a column no gap is found: the scan only collects characters. *)
Lemma splitGapsFrom_column (a : jsstring) :
  forall cur rest : jsstring,
    singleSpaced a = true -> endsWithSpace a = false ->
    splitGapsFrom 0 cur (a ++ rest) = splitGapsFrom 0 (rev a ++ cur) rest.
Proof.
  induction a as [|c a IH]; intros cur rest Hs He; [reflexivity|].
  cbn [app splitGapsFrom].
  assert (Hrun : (4 <=? List.length (takeWhile isSpace (c :: a ++ rest)))%nat
                 = false).
  { cbn [takeWhile]. destruct (isSpace c) eqn:Hc; [|reflexivity].
    destruct a as [|d a]; [cbn in He; congruence|].
    cbn [app takeWhile]. now rewrite (singleSpaced_next c d a Hs Hc). }
  rewrite Hrun. rewrite (IH (c :: cur) rest (singleSpaced_tail _ _ Hs)
                           (endsWithSpace_tail _ _ He)).
  cbn [rev]. now rewrite <- app_assoc.
Qed.

Lemma splitGapsFrom_last (b : jsstring) :
  forall cur : jsstring,
    singleSpaced b = true ->
    splitGapsFrom 0 cur b = [rev cur ++ b].
Proof.
  induction b as [|c b IH]; intros cur Hs.
  - cbn [splitGapsFrom]. now rewrite app_nil_r.
  - cbn [splitGapsFrom].
    assert (Hrun : (4 <=? List.length (takeWhile isSpace (c :: b)))%nat = false).
    { cbn [takeWhile]. destruct (isSpace c) eqn:Hc; [|reflexivity].
      destruct b as [|d b]; [reflexivity|].
      cbn [takeWhile]. now rewrite (singleSpaced_next c d b Hs Hc). }
    rewrite Hrun, (IH _ (singleSpaced_tail _ _ Hs)).
    cbn [rev]. now rewrite <- app_assoc.
Qed.

Lemma splitGapsFrom_skip (ws : jsstring) :
  forall cur s : jsstring,
    splitGapsFrom (List.length ws) cur (ws ++ s) = splitGapsFrom 0 cur s.
Proof.
  induction ws as [|c ws IH]; intros cur s; [reflexivity|].
  cbn [List.length app splitGapsFrom]. apply IH.
Qed.

Lemma takeWhile_run (ws b : jsstring) :
  forallb isSpace ws = true -> startsWithSpace b = false ->
  takeWhile isSpace (ws ++ b) = ws.
Proof.
  intros Hws Hb. induction ws as [|c ws IH].
  - destruct b as [|d b]; [reflexivity|]. cbn in *. now rewrite Hb.
  - cbn [forallb] in Hws. apply andb_prop in Hws. destruct Hws as [Hc Hws].
    cbn [app takeWhile]. now rewrite Hc, (IH Hws).
Qed.

(** X19.  A signature row is cut at a gap of four or more blanks and
    nowhere else: two columns [a] and [b] in which blanks stand singly,
    separated by such a gap, are returned as exactly these two columns,
    single blanks inside a column being kept. *)
Theorem splitGaps_two_columns :
  forall a ws b : jsstring,
    singleSpaced a = true -> endsWithSpace a = false ->
    singleSpaced b = true -> startsWithSpace b = false ->
    forallb isSpace ws = true -> (4 <= List.length ws)%nat ->
    splitGaps (a ++ ws ++ b) = [a; b].
Proof.
  intros a ws b Ha Hae Hb Hbs Hws Hlen. unfold splitGaps.
  rewrite (splitGapsFrom_column a [] (ws ++ b) Ha Hae). rewrite app_nil_r.
  destruct ws as [|w ws]; [cbn in Hlen; lia|].
  cbn [app splitGapsFrom].
  change (w :: ws ++ b) with ((w :: ws) ++ b).
  rewrite (takeWhile_run (w :: ws) b Hws Hbs).
  rewrite (proj2 (Nat.leb_le _ _) Hlen). rewrite rev_involutive.
  replace (List.length (w :: ws) - 1)%nat with (List.length ws)
    by (cbn [List.length]; lia).
  rewrite splitGapsFrom_skip, (splitGapsFrom_last b [] Hb). reflexivity.
Qed.

Lemma splitGaps_two_columns_witness :
  splitGaps (js "Council President" ++ js "         " ++ js "Township Clerk")
  = [js "Council President"; js "Township Clerk"].
Proof.
  exact (splitGaps_two_columns (js "Council President") (js "         ")
           (js "Township Clerk") eq_refl eq_refl eq_refl eq_refl eq_refl
           ltac:(vm_compute; lia)).
Defined.

(** *** One marker in a line *)

Lemma splitMarkersFrom_before (pre : jsstring) :
  forall cur s : jsstring,
    existsb (N.eqb 91) pre = false ->
    splitMarkersFrom 0 cur (pre ++ s) = splitMarkersFrom 0 (rev pre ++ cur) s.
Proof.
  induction pre as [|c pre IH]; intros cur s H; [reflexivity|].
  cbn [existsb] in H. apply orb_false_elim in H. destruct H as [Hc Hp].
  cbn [app splitMarkersFrom]. rewrite (markerMatchAt_no_bracket _ _ Hc).
  rewrite (IH _ _ Hp). cbn [rev]. now rewrite <- app_assoc.
Qed.

Lemma splitMarkersFrom_skip (m : jsstring) :
  forall cur s : jsstring,
    splitMarkersFrom (List.length m) cur (m ++ s) = splitMarkersFrom 0 cur s.
Proof.
  induction m as [|c m IH]; intros cur s; [reflexivity|].
  cbn [List.length app splitMarkersFrom]. apply IH.
Qed.

Lemma isReviewMarker_no_bracket (s : jsstring) :
  existsb (N.eqb 91) s = false -> isReviewMarker s = false.
Proof.
  intros H. unfold isReviewMarker. destruct s as [|c s]; [reflexivity|].
  cbn [existsb] in H. apply orb_false_elim in H. destruct H as [Hc _].
  now rewrite (markerMatchAt_no_bracket _ _ Hc).
Qed.

Lemma splitMarkers_one (pre m post : jsstring) :
  existsb (N.eqb 91) pre = false ->
  isReviewMarker m = true ->
  existsb (N.eqb 91) post = false ->
  splitMarkers (pre ++ m ++ post) = [pre; m; post].
Proof.
  intros Hpre Hm Hpost. unfold splitMarkers.
  rewrite (splitMarkersFrom_before pre [] (m ++ post) Hpre), app_nil_r.
  pose proof (marker_extends m post Hm) as E.
  destruct m as [|c m']; [discriminate Hm|].
  cbn [app splitMarkersFrom]. cbn [app] in E. rewrite E.
  rewrite rev_involutive.
  replace (List.length (c :: m') - 1)%nat with (List.length m')
    by (cbn [List.length]; lia).
  rewrite splitMarkersFrom_skip, (splitMarkersFrom_plain post [] Hpost).
  reflexivity.
Qed.

(** X20.  A line with one review marker becomes three spans: the text
    before it, the marker, and the text after it.  The marker shows its
    text without the timestamp; with a video URL it links to the URL with
    [?seekto=] and the parsed seconds, or to the bare URL when no
    timestamp was parsed; without a video URL it has no link. *)
Theorem ReviewText_one_marker :
  forall (pre m post url : jsstring),
    existsb (N.eqb 91) pre = false ->
    isReviewMarker m = true ->
    existsb (N.eqb 91) post = false ->
    url <> [] ->
    ReviewText (pre ++ m ++ post) (Some url)
    = [ PlainSpan pre;
        ReviewSpan (stripTimestamp m) (parseReviewTimestamp m)
          (Some match parseReviewTimestamp m with
                | Some t => url ++ js "?seekto=" ++ numToString (seconds t)
                | None => url
                end);
        PlainSpan post ] /\
    ReviewText (pre ++ m ++ post) None
    = [ PlainSpan pre;
        ReviewSpan (stripTimestamp m) (parseReviewTimestamp m) None;
        PlainSpan post ].
Proof.
  intros pre m post url Hpre Hm Hpost Hurl.
  unfold ReviewText. rewrite (splitMarkers_one pre m post Hpre Hm Hpost).
  cbn [map]. rewrite (isReviewMarker_no_bracket _ Hpre),
    (isReviewMarker_no_bracket _ Hpost), Hm. cbn [negb].
  destruct url as [|u0 url]; [contradiction|]. cbn [canLink].
  split; [|reflexivity].
  destruct (parseReviewTimestamp m); reflexivity.
Qed.

Lemma ReviewText_one_marker_witness :
  ReviewText (js "Councilmember Smith raised " ++
              js "[REVIEW: budget concern @12:05]" ++ js " again")
             (Some (js "https://v.example/1"))
  = [ PlainSpan (js "Councilmember Smith raised ");
      ReviewSpan (js "[REVIEW: budget concern]")
        (Some (mkTimestamp (js "12:05") 725))
        (Some (js "https://v.example/1?seekto=725"));
      PlainSpan (js " again") ].
Proof.
  exact (proj1 (ReviewText_one_marker (js "Councilmember Smith raised ")
                  (js "[REVIEW: budget concern @12:05]") (js " again")
                  (js "https://v.example/1") eq_refl eq_refl eq_refl
                  ltac:(discriminate))).
Defined.

(** *** White space around a line *)

Lemma trimEnd_fixed (s : jsstring) : endsWithSpace s = false -> trimEnd s = s.
Proof.
  unfold trimEnd. intros H. rewrite <- (rev_involutive s) in H.
  rewrite endsWithSpace_rev in H.
  destruct (rev s) as [|c r] eqn:E.
  - cbn. rewrite <- (rev_involutive s), E. reflexivity.
  - cbn [dropWhile]. rewrite H. rewrite <- E. apply rev_involutive.
Qed.

Lemma trimEnd_prefix (s : jsstring) :
  exists w, s = trimEnd s ++ w.
Proof.
  unfold trimEnd. exists (rev (takeWhile isSpace (rev s))).
  rewrite <- rev_app_distr, takeWhile_dropWhile. now rewrite rev_involutive.
Qed.

Lemma trim_idempotent (s : jsstring) : trim (trim s) = trim s.
Proof.
  assert (Hstart : trimStart (trim s) = trim s).
  { unfold trimStart. destruct (trim s) as [|c t] eqn:E; [reflexivity|].
    unfold trim in E. destruct (trimEnd_prefix (trimStart s)) as [w Hw].
    rewrite E in Hw. unfold trimStart in Hw.
    cbn [app] in Hw. apply dropWhile_head in Hw.
    cbn [dropWhile]. now rewrite Hw. }
  unfold trim at 1. rewrite Hstart. apply trimEnd_fixed, trim_no_space_end.
Qed.

(** X21.  White space at the beginning or the end of a body line has no
    influence on what is rendered for it: in both renderers the step of
    the body loop gives the same element, flags and cursor for a line and
    for the same line trimmed. *)
Theorem body_step_ignores_outer_space :
  forall (heightOfString : jsstring -> Q -> bool -> Q)
         (continuedY : jsstring -> Q -> bool -> Q -> Q)
         (videoUrl : option jsstring) (st : SectionState)
         (pst : MinutesPdf.SectionState) (c : MinutesPdf.Cursor)
         (line : jsstring),
    bodyStep videoUrl st (trim line) = bodyStep videoUrl st line /\
    MinutesPdf.bodyStep heightOfString continuedY pst c (trim line)
    = MinutesPdf.bodyStep heightOfString continuedY pst c line.
Proof.
  intros h k v st pst c line. unfold bodyStep, MinutesPdf.bodyStep.
  rewrite trim_idempotent. split; reflexivity.
Qed.


(** X22.  The time that counts is the leftmost match of the pattern in
    the marker, also when an [@] that starts no time stands before it.
    When that match has the form M:SS, the display is the matched time
    as written, leading zero included, and the seconds are M*60+SS. *)
Theorem leftmost_minutes_as_written :
  forall pre g1 g2 post : jsstring,
    noMatchBefore pre (js "@" ++ g1 ++ js ":" ++ g2 ++ post) = true ->
    digitsOfLength 1 2 g1 = true ->
    digitsOfLength 2 2 g2 = true ->
    continuesWithSeconds post = false ->
    parseReviewTimestamp (pre ++ js "@" ++ g1 ++ js ":" ++ g2 ++ post)
    = Some (mkTimestamp (g1 ++ js ":" ++ g2)
                        (parseInt g1 * 60 + parseInt g2)).
Proof.
  intros pre g1 g2 post Hpre H1 H2 Hp.
  exact (parse_minutes_leftmost pre g1 g2 post Hpre H1 H2 Hp).
Qed.

Lemma leftmost_minutes_as_written_witness :
  parseReviewTimestamp (js "[REVIEW: cc clerk@edison @01:23]")
  = Some (mkTimestamp (js "01:23") 83).
Proof.
  exact (leftmost_minutes_as_written (js "[REVIEW: cc clerk@edison ")
           (js "01") (js "23") (js "]") eq_refl eq_refl eq_refl eq_refl).
Defined.
